(** * LawFinder: the statute XML parser, embedded and verified

    Shallow embedding of [backend/src/parsers/xml_parser.py] (class
    [LawXMLParser]) and of the entity classes of [backend/src/models/law.py].

    Modelling conventions.
    - A Python [str] is the Rocq [string] of its UTF-8 encoding. The
      operations of the parser on one ASCII character ([in], [split],
      [replace]) act on that encoding as they act on the [str], since an
      ASCII byte never occurs inside the encoding of another character.
      [int] decodes the code points and reads the decimal digits and the
      blanks of Unicode 14.0 (CPython 3.11).
    - A Python [int] is a [Z].
    - An [xml.etree.ElementTree.Element] is the record [Element]: tag,
      attribute dict, optional text, direct children in document order.
    - A raised exception is the [Raise] branch of the result type [Exc];
      the statements of a Python block are chained with the bind of that
      monad, in source order.
    - A [for] loop that appends to a list or assigns to a field of an object
      under construction is [for_in], a left-to-right fold whose state is the
      object being built. *)

From Stdlib Require Import ZArith String Ascii List Lia.
From stdpp Require Import base option list strings gmap pretty.

Local Open Scope string_scope.
Local Open Scope list_scope.
Local Open Scope stdpp_scope.
Local Open Scope Z_scope.
#[local] Set Warnings "-register-all".

(** ** Exceptions *)

Inductive PyError : Type :=
| ValueError        (* int() on a malformed literal, date() out of range *)
| OverflowError     (* date() on an integer that does not fit a C int *)
| AttributeError    (* attribute access on None *)
| ValidationError.  (* pydantic: None given for a required str field *)

Inductive Exc (A : Type) : Type :=
| Ok (a : A)
| Raise (e : PyError).
Arguments Ok {A} a.
Arguments Raise {A} e.

Definition bind {A B : Type} (m : Exc A) (k : A -> Exc B) : Exc B :=
  match m with
  | Ok a => k a
  | Raise e => Raise e
  end.

Notation "'do' x <- m ; k" := (bind m (fun x => k))
  (at level 10, x name, m at level 100, k at level 200,
   format "'[v' 'do'  x  <-  m ; '/' k ']'").

Definition succeeds {A : Type} (m : Exc A) : bool :=
  match m with Ok _ => true | Raise _ => false end.

(** [for x in xs: body] with the loop-carried state [s]. *)
Fixpoint for_in {A S : Type} (xs : list A) (body : A -> S -> Exc S) (s : S)
  : Exc S :=
  match xs with
  | [] => Ok s
  | x :: rest => do s' <- body x s; for_in rest body s'
  end.

(** ** Python string built-ins *)

Module Py.

(** Truthiness of a [str]: non-empty. *)
Definition truthy (s : string) : bool :=
  match s with EmptyString => false | String _ _ => true end.

(** [c in s] for a one-character [c]. *)
Fixpoint contains (c : ascii) (s : string) : bool :=
  match s with
  | EmptyString => false
  | String a rest => if Ascii.eqb a c then true else contains c rest
  end.

(** [s.split(c)[0]]: the part of [s] before the first [c]. *)
Fixpoint split_head (c : ascii) (s : string) : string :=
  match s with
  | EmptyString => EmptyString
  | String a rest =>
      if Ascii.eqb a c then EmptyString else String a (split_head c rest)
  end.

(** [s.replace(a, b)] for one-character [a] and [b]. *)
Fixpoint replace (a b : ascii) (s : string) : string :=
  match s with
  | EmptyString => EmptyString
  | String c rest =>
      String (if Ascii.eqb c a then b else c) (replace a b rest)
  end.

(** [sep.join(xs)]. *)
Definition join (sep : string) (xs : list string) : string :=
  String.concat sep xs.

(** [str(n)], also the rendering of an int inside an f-string. *)
Definition str (n : Z) : string := pretty n.

(** The ASCII blanks skipped by [int]: tab, LF, VT, FF, CR and space. *)
Definition isspace (c : ascii) : bool :=
  let n := nat_of_ascii c in
  ((9 <=? n)%nat && (n <=? 13)%nat) || (n =? 32)%nat.

Definition digit_value (c : ascii) : option Z :=
  let n := nat_of_ascii c in
  if ((48 <=? n)%nat && (n <=? 57)%nat)%bool
  then Some (Z.of_nat n - 48) else None.

Fixpoint lstrip (s : string) : string :=
  match s with
  | EmptyString => EmptyString
  | String c rest => if isspace c then lstrip rest else s
  end.

Fixpoint all_space (s : string) : bool :=
  match s with
  | EmptyString => true
  | String c rest => isspace c && all_space rest
  end.

(** The digit scan of [int]: digits with single underscores between them.
    Returns the value, the number of digits, whether the last character
    read was an underscore, and the unread rest; [None] on a doubled
    underscore. *)
Fixpoint scan_digits (s : string) (acc : Z) (digits : nat) (prev_us : bool)
  : option (Z * nat * bool * string) :=
  match s with
  | EmptyString => Some (acc, digits, prev_us, s)
  | String c rest =>
      if Ascii.eqb c "_"%char then
        if prev_us then None else scan_digits rest acc digits true
      else
        match digit_value c with
        | Some d => scan_digits rest (10 * acc + d) (S digits) false
        | None => Some (acc, digits, prev_us, s)
        end
  end.

(** Default of [sys.get_int_max_str_digits()]. *)
Definition max_str_digits : nat := 4300.

Definition int_unsigned (s : string) : Exc Z :=
  match s with
  | String "_"%char _ => Raise ValueError
  | _ =>
      match scan_digits s 0 0%nat false with
      | None => Raise ValueError
      | Some (v, digits, prev_us, rest) =>
          if prev_us then Raise ValueError
          else if (digits =? 0)%nat then Raise ValueError
          else if (max_str_digits <? digits)%nat then Raise ValueError
          else if all_space rest then Ok v
          else Raise ValueError
      end
  end.

(** The parse of [int] on ASCII text, base 10: blanks, a sign, the digits,
    blanks. *)
Definition int_ascii (s : string) : Exc Z :=
  match lstrip s with
  | String "+"%char rest => int_unsigned rest
  | String "-"%char rest => do v <- int_unsigned rest; Ok (- v)
  | body => int_unsigned body
  end.

(** A continuation byte of UTF-8 and its six bits. *)
Definition is_cont (c : ascii) : bool :=
  ((128 <=? N_of_ascii c) && (N_of_ascii c <? 192))%N.

Definition cont_bits (c : ascii) : N := (N_of_ascii c - 128)%N.

(** The code points of a string, read from its UTF-8 encoding; None on
    bytes that encode no string (stray or missing continuation bytes,
    overlong forms, surrogates, values above U+10FFFF). *)
Fixpoint code_points (s : string) : option (list N) :=
  match s with
  | EmptyString => Some []
  | String b0 r0 =>
      let n0 := N_of_ascii b0 in
      if (n0 <? 128)%N then cons n0 <$> code_points r0
      else if (n0 <? 192)%N then None
      else if (n0 <? 224)%N then
        match r0 with
        | String b1 r1 =>
            let cp := ((n0 - 192) * 64 + cont_bits b1)%N in
            if is_cont b1 && (128 <=? cp)%N
            then cons cp <$> code_points r1 else None
        | _ => None
        end
      else if (n0 <? 240)%N then
        match r0 with
        | String b1 (String b2 r2) =>
            let cp :=
              ((n0 - 224) * 4096 + cont_bits b1 * 64 + cont_bits b2)%N in
            if is_cont b1 && is_cont b2 && (2048 <=? cp)%N
               && negb ((55296 <=? cp) && (cp <=? 57343))%N
            then cons cp <$> code_points r2 else None
        | _ => None
        end
      else if (n0 <? 248)%N then
        match r0 with
        | String b1 (String b2 (String b3 r3)) =>
            let cp :=
              ((n0 - 240) * 262144 + cont_bits b1 * 4096
               + cont_bits b2 * 64 + cont_bits b3)%N in
            if is_cont b1 && is_cont b2 && is_cont b3
               && (65536 <=? cp)%N && (cp <=? 1114111)%N
            then cons cp <$> code_points r3 else None
        | _ => None
        end
      else None
  end.

(** The blanks above ASCII: NEL, NBSP, U+1680, U+2000..U+200A, U+2028,
    U+2029, U+202F, U+205F, U+3000. *)
Definition unicode_isspace (cp : N) : bool :=
  existsb (N.eqb cp) [133; 160; 5760; 8232; 8233; 8239; 8287; 12288]%N
  || ((8192 <=? cp) && (cp <=? 8202))%N.

(** The first code point of each run of ten decimal digits 0..9. *)
Definition decimal_digit_runs : list N :=
  [ 48; 1632; 1776; 1984; 2406; 2534; 2662; 2790; 2918; 3046; 3174; 3302;
    3430; 3558; 3664; 3792; 3872; 4160; 4240; 6112; 6160; 6470; 6608; 6784;
    6800; 6992; 7088; 7232; 7248; 42528; 43216; 43264; 43472; 43504; 43600;
    44016; 65296; 66720; 68912; 69734; 69872; 69942; 70096; 70384; 70736;
    70864; 71248; 71360; 71472; 71904; 72016; 72784; 73040; 73120; 92768;
    92864; 93008; 120782; 120792; 120802; 120812; 120822; 123200; 123632;
    125264; 130032 ]%N.

(** The decimal digit value of a code point. *)
Definition unicode_decimal (cp : N) : option N :=
  match List.find (fun b => (b <=? cp) && (cp <? b + 10))%N
          decimal_digit_runs with
  | Some b => Some (cp - b)%N
  | None => None
  end.

(** The step of [int] before the parse: an ASCII character other than DEL
    is kept, a blank above it becomes a space, a decimal digit becomes its
    ASCII digit; any other character makes the conversion fail. *)
Fixpoint to_ascii (cps : list N) : option string :=
  match cps with
  | [] => Some EmptyString
  | cp :: rest =>
      if (cp <? 127)%N then String (ascii_of_N cp) <$> to_ascii rest
      else if unicode_isspace cp then String " "%char <$> to_ascii rest
      else
        match unicode_decimal cp with
        | Some d => String (ascii_of_N (48 + d)) <$> to_ascii rest
        | None => None
        end
  end.

(** [int(s)] for a [str] argument, base 10. *)
Definition int (s : string) : Exc Z :=
  match code_points s with
  | Some cps =>
      match to_ascii cps with
      | Some t => int_ascii t
      | None => Raise ValueError
      end
  | None => Raise ValueError
  end.

End Py.

(** ** The document tree ([xml.etree.ElementTree.Element]) *)

Inductive Element : Type :=
  mkElement {
    tag : string;
    attrib : gmap string string;
    text : option string;
    children : list Element
  }.

(** [elem.findall(t)]: the direct children with tag [t], in document order. *)
Definition findall (t : string) (elem : Element) : list Element :=
  filter (fun c => tag c = t) (children elem).

(** [elem.find(t)]: the first direct child with tag [t], or None. *)
Definition find (t : string) (elem : Element) : option Element :=
  head (findall t elem).

(** [elem.get(key, dflt)]. *)
Definition get (elem : Element) (key dflt : string) : string :=
  default dflt (attrib elem !! key).

(** [elem.get(key)], None when the attribute is absent. *)
Definition get_opt (elem : Element) (key : string) : option string :=
  attrib elem !! key.

(** [int(attrs.get(key, n))] with an integer default [n]: [int] of an int
    is that int. *)
Definition int_attr (elem : Element) (key : string) (dflt : Z) : Exc Z :=
  match attrib elem !! key with
  | Some s => Py.int s
  | None => Ok dflt
  end.

(** ** [datetime.date] *)

Record date : Type := mkdate { year : Z; month : Z; day : Z }.

Definition is_leap (y : Z) : bool :=
  (y mod 4 =? 0) && (negb (y mod 100 =? 0) || (y mod 400 =? 0)).

Definition days_in_month (y m : Z) : Z :=
  if m =? 2 then (if is_leap y then 29 else 28)
  else if (m =? 4) || (m =? 6) || (m =? 9) || (m =? 11) then 30
  else 31.

Definition fits_c_int (n : Z) : bool :=
  (- 2147483648 <=? n) && (n <=? 2147483647).

(** [date(y, m, d)]: the arguments are converted to C ints, then checked
    against MINYEAR..MAXYEAR, 1..12 and the length of the month. *)
Definition date_new (y m d : Z) : Exc date :=
  if negb (fits_c_int y && fits_c_int m && fits_c_int d)
  then Raise OverflowError
  else if negb ((1 <=? y) && (y <=? 9999)) then Raise ValueError
  else if negb ((1 <=? m) && (m <=? 12)) then Raise ValueError
  else if negb ((1 <=? d) && (d <=? days_in_month y m)) then Raise ValueError
  else Ok (mkdate y m d).

(** ** The entity classes ([models/law.py]) *)

Inductive LawType : Type :=
| ACT | CABINET_ORDER | ORDINANCE | IMPERIAL_ORDINANCE | RULE | OTHER.

Module Item.
Record t : Type := mk {
  item_id : string;
  paragraph_id : string;
  item_num : Z;
  item_title : string;
  content : string
}.
End Item.

Module Paragraph.
Record t : Type := mk {
  paragraph_id : string;
  article_id : string;
  paragraph_num : Z;
  content : string;
  items : list Item.t
}.
End Paragraph.

Module Article.
Record t : Type := mk {
  article_id : string;
  law_id : string;
  article_num : Z;
  article_title : option string;
  article_caption : option string;
  content : string;
  paragraphs : list Paragraph.t
}.
End Article.

Module SupplProvision.
Record t : Type := mk {
  suppl_provision_id : string;
  law_id : string;
  amend_law_num : option string;
  suppl_provision_type : string;
  extract : bool;
  articles : list Article.t;
  paragraphs : list Paragraph.t
}.
End SupplProvision.

Module Law.
Record t : Type := mk {
  law_id : string;
  law_type : LawType;
  law_num : string;
  law_title : string;
  law_title_kana : option string;
  abbreviation : option string;
  era : string;
  year : Z;
  num : Z;
  promulgate_date : date;
  enforce_date : option date
}.
End Law.

(** A required [str] field of a pydantic model rejects None. *)
Definition required_str (v : option string) : Exc string :=
  match v with
  | Some s => Ok s
  | None => Raise ValidationError
  end.

(** [Item(...)]: the only argument that can be None is [item_title]. *)
Definition Item_new (item_id paragraph_id : string) (item_num : Z)
  (item_title : option string) (content : string) : Exc Item.t :=
  do title <- required_str item_title;
  Ok (Item.mk item_id paragraph_id item_num title content).

(** [Law(...)]: [law_num] and [law_title] are required [str] fields and are
    given an element's text, which can be None; [enforce_date] is left to its
    default. *)
Definition Law_new (law_id : string) (law_type : LawType)
  (law_num law_title : option string)
  (law_title_kana abbreviation : option string)
  (era : string) (year num : Z) (promulgate_date : date) : Exc Law.t :=
  do law_num' <- required_str law_num;
  do law_title' <- required_str law_title;
  Ok (Law.mk law_id law_type law_num' law_title' law_title_kana abbreviation
        era year num promulgate_date None).

(** ** The parser ([parsers/xml_parser.py], class [LawXMLParser]) *)

(** Attribute access [obj.attr] on an [Optional] object. *)
Definition deref {A : Type} (obj : option A) : Exc A :=
  match obj with
  | Some a => Ok a
  | None => Raise AttributeError
  end.

(** Truthiness of a list: non-empty. *)
Definition nonempty {A : Type} (l : list A) : bool :=
  match l with [] => false | _ :: _ => true end.

Module LawXMLParser.

(** [self.era_mapping], set in [__init__]. *)
Definition era_mapping : gmap string string :=
  {[ "Meiji" := "明治"; "Taisho" := "大正"; "Showa" := "昭和";
     "Heisei" := "平成"; "Reiwa" := "令和" ]}.

(** [self.law_type_mapping], set in [__init__]. *)
Definition law_type_mapping : gmap string LawType :=
  {[ "Act" := ACT; "CabinetOrder" := CABINET_ORDER;
     "Ordinance" := ORDINANCE; "ImperialOrdinance" := IMPERIAL_ORDINANCE;
     "Rule" := RULE ]}.

(** The local dict [era_start_years] of [_convert_to_gregorian_date]. *)
Definition era_start_years : gmap string Z :=
  {[ "Meiji" := 1868; "Taisho" := 1912; "Showa" := 1926;
     "Heisei" := 1989; "Reiwa" := 2019 ]}.

(** The local [gregorian_year] of [_convert_to_gregorian_date]:
    [start_year = era_start_years.get(era, 1868)], then
    [start_year + year - 1]. *)
Definition gregorian_year (era : string) (year : Z) : Z :=
  let start_year := default 1868 (era_start_years !! era) in
  start_year + year - 1.

Definition _convert_to_gregorian_date (era : string) (year month day : Z)
  : Exc date :=
  date_new (gregorian_year era year) month day.

(** [' '.join(s.text for s in sentences if s.text)]. *)
Definition join_sentences (sentences : list Element) : string :=
  Py.join " "
    (omap (fun s => match text s with
                    | Some t => if Py.truthy t then Some t else None
                    | None => None
                    end) sentences).

(** The content of a paragraph or item: the joined sentences of its
    sentence container, the empty string without a container. *)
Definition sentence_content (container : option Element) : string :=
  match container with
  | Some c => join_sentences (findall "Sentence" c)
  | None => ""
  end.

Definition _parse_item (item_elem : Element) (paragraph_id : string)
  : Exc (option Item.t) :=
  do item_num <- Py.int (get item_elem "Num" "1");
  let item_id := paragraph_id +:+ "_item" +:+ Py.str item_num in
  let item_title_elem := find "ItemTitle" item_elem in
  let item_sentence_elem := find "ItemSentence" item_elem in
  let content := sentence_content item_sentence_elem in
  do item <- Item_new item_id paragraph_id item_num
               (match item_title_elem with
                | Some e => text e
                | None => Some (Py.str item_num)
                end)
               content;
  Ok (Some item).

(** [paragraph.items.append(item)]. *)
Definition append_item (p : Paragraph.t) (it : Item.t) : Paragraph.t :=
  Paragraph.mk (Paragraph.paragraph_id p) (Paragraph.article_id p)
    (Paragraph.paragraph_num p) (Paragraph.content p)
    (Paragraph.items p ++ [it]).

Definition _parse_paragraph (para_elem : Element) (article_id : string)
  : Exc (option Paragraph.t) :=
  do para_num <- Py.int (get para_elem "Num" "1");
  let paragraph_id := article_id +:+ "_para" +:+ Py.str para_num in
  let para_sentence_elem := find "ParagraphSentence" para_elem in
  let content := sentence_content para_sentence_elem in
  let paragraph :=
    Paragraph.mk paragraph_id article_id para_num content [] in
  do paragraph <-
    for_in (findall "Item" para_elem)
      (fun item_elem paragraph =>
         do item <- _parse_item item_elem paragraph_id;
         match item with
         | Some it => Ok (append_item paragraph it)
         | None => Ok paragraph
         end)
      paragraph;
  Ok (Some paragraph).

(** [article.paragraphs.append(paragraph)]. *)
Definition append_paragraph (a : Article.t) (p : Paragraph.t) : Article.t :=
  Article.mk (Article.article_id a) (Article.law_id a)
    (Article.article_num a) (Article.article_title a)
    (Article.article_caption a) (Article.content a)
    (Article.paragraphs a ++ [p]).

(** [article.content = c]. *)
Definition set_content (a : Article.t) (c : string) : Article.t :=
  Article.mk (Article.article_id a) (Article.law_id a)
    (Article.article_num a) (Article.article_title a)
    (Article.article_caption a) c (Article.paragraphs a).

(** The body of the paragraph loop, the same statements in
    [_parse_article] and in [_parse_articles_from_element]:
    parse, append if truthy, and copy the paragraph's content into the
    article while the article's content is still empty. *)
Definition paragraph_step (article_id : string) (para_elem : Element)
  (article : Article.t) : Exc Article.t :=
  do paragraph <- _parse_paragraph para_elem article_id;
  match paragraph with
  | Some p =>
      let article := append_paragraph article p in
      if negb (Py.truthy (Article.content article))
      then Ok (set_content article (Paragraph.content p))
      else Ok article
  | None => Ok article
  end.

(** The ordinal of an article numbering token (the [if '_' in ...] of
    [_parse_article]): the part before the first underscore when there is
    one, the whole token otherwise, read by [int]. *)
Definition article_ordinal (article_num_str : string) : Exc Z :=
  if Py.contains "_" article_num_str
  then Py.int (Py.split_head "_" article_num_str)
  else Py.int article_num_str.

Definition _parse_article (article_elem : Element) (law_id : string)
  : Exc (option Article.t) :=
  let article_num_str := get article_elem "Num" "0" in
  do article_num <- article_ordinal article_num_str;
  let article_id := law_id +:+ "_art" +:+ article_num_str in
  let article_title_elem := find "ArticleTitle" article_elem in
  let article_caption_elem := find "ArticleCaption" article_elem in
  let article :=
    Article.mk article_id law_id article_num
      (match article_title_elem with Some e => text e | None => None end)
      (match article_caption_elem with Some e => text e | None => None end)
      "" [] in
  do article <-
    for_in (findall "Paragraph" article_elem) (paragraph_step article_id)
      article;
  Ok (Some article).

(** The body of an article loop: parse, append if truthy. *)
Definition article_step (law_id : string) (article_elem : Element)
  (articles : list Article.t) : Exc (list Article.t) :=
  do article <- _parse_article article_elem law_id;
  match article with
  | Some a => Ok (articles ++ [a])
  | None => Ok articles
  end.

Definition _parse_articles_from_element (element : Element)
  (law_id : string) : Exc (list Article.t) :=
  do articles <- for_in (findall "Article" element) (article_step law_id) [];
  let paragraphs := findall "Paragraph" element in
  if nonempty paragraphs && negb (nonempty (findall "Article" element))
  then
    let article_id := law_id +:+ "_main" in
    let article := Article.mk article_id law_id 0 None None "" [] in
    do article <- for_in paragraphs (paragraph_step article_id) article;
    Ok (articles ++ [article])
  else Ok articles.

(** [parse_articles], on the root of the parsed file. *)
Definition parse_articles (root : Element) (law_id : string)
  : Exc (list Article.t) :=
  let law_body := find "LawBody" root in
  let articles : list Article.t := [] in
  do body <- deref law_body;
  let main_provision := find "MainProvision" body in
  do articles <-
    match main_provision with
    | Some mp =>
        do found <- _parse_articles_from_element mp law_id;
        Ok (articles ++ found)
    | None => Ok articles
    end;
  for_in (findall "Chapter" body)
    (fun chapter articles =>
       do found <- _parse_articles_from_element chapter law_id;
       Ok (articles ++ found))
    articles.

(** [parse_law_file], on the stem of the file name ([file_path.stem]) and
    the root of the parsed file. *)
Definition parse_law_file (stem : string) (root : Element) : Exc Law.t :=
  let era := get root "Era" "" in
  do year <- int_attr root "Year" 0;
  let law_type :=
    default OTHER (law_type_mapping !! get root "LawType" "") in
  do num <- int_attr root "Num" 0;
  do promulgate_month <- int_attr root "PromulgateMonth" 1;
  do promulgate_day <- int_attr root "PromulgateDay" 1;
  do promulgate_date <-
    _convert_to_gregorian_date era year promulgate_month promulgate_day;
  let law_body := find "LawBody" root in
  let law_num_elem := find "LawNum" root in
  do body <- deref law_body;
  let law_title_elem := find "LawTitle" body in
  let law_id := Py.split_head "_" stem in
  do law <-
    Law_new law_id law_type
      (match law_num_elem with Some e => text e | None => Some "" end)
      (match law_title_elem with Some e => text e | None => Some "" end)
      (match law_title_elem with
       | Some e => Some (get e "Kana" "")
       | None => None
       end)
      (match law_title_elem with
       | Some e => Some (get e "Abbrev" "")
       | None => None
       end)
      (default era (era_mapping !! era)) year num promulgate_date;
  Ok law.

(** [suppl_provision.articles.append(article)]. *)
Definition append_suppl_article (sp : SupplProvision.t) (a : Article.t)
  : SupplProvision.t :=
  SupplProvision.mk (SupplProvision.suppl_provision_id sp)
    (SupplProvision.law_id sp) (SupplProvision.amend_law_num sp)
    (SupplProvision.suppl_provision_type sp) (SupplProvision.extract sp)
    (SupplProvision.articles sp ++ [a]) (SupplProvision.paragraphs sp).

(** [suppl_provision.paragraphs.append(paragraph)]. *)
Definition append_suppl_paragraph (sp : SupplProvision.t)
  (p : Paragraph.t) : SupplProvision.t :=
  SupplProvision.mk (SupplProvision.suppl_provision_id sp)
    (SupplProvision.law_id sp) (SupplProvision.amend_law_num sp)
    (SupplProvision.suppl_provision_type sp) (SupplProvision.extract sp)
    (SupplProvision.articles sp) (SupplProvision.paragraphs sp ++ [p]).

(** The local [suppl_provision_id] of [_parse_suppl_provision]: the
    f-string, extended under [if amend_law_num:] (not None and not
    empty). *)
Definition suppl_provision_id (law_id suppl_type : string)
  (amend_law_num : option string) : string :=
  let suppl_provision_id := law_id +:+ "_suppl_" +:+ suppl_type in
  match amend_law_num with
  | Some a =>
      if Py.truthy a
      then suppl_provision_id +:+ "_" +:+ Py.replace " " "_" a
      else suppl_provision_id
  | None => suppl_provision_id
  end.

Definition _parse_suppl_provision (suppl_elem : Element) (law_id : string)
  : Exc (option SupplProvision.t) :=
  let amend_law_num := get_opt suppl_elem "AmendLawNum" in
  let suppl_type := get suppl_elem "Type" "New" in
  let extract := String.eqb (get suppl_elem "Extract" "false") "true" in
  let suppl_provision_id :=
    suppl_provision_id law_id suppl_type amend_law_num in
  let suppl_provision :=
    SupplProvision.mk suppl_provision_id law_id amend_law_num suppl_type
      extract [] [] in
  do suppl_provision <-
    for_in (findall "Article" suppl_elem)
      (fun article_elem suppl_provision =>
         do article <- _parse_article article_elem law_id;
         match article with
         | Some a => Ok (append_suppl_article suppl_provision a)
         | None => Ok suppl_provision
         end)
      suppl_provision;
  do suppl_provision <-
    for_in (findall "Paragraph" suppl_elem)
      (fun para_elem suppl_provision =>
         do paragraph <- _parse_paragraph para_elem suppl_provision_id;
         match paragraph with
         | Some p => Ok (append_suppl_paragraph suppl_provision p)
         | None => Ok suppl_provision
         end)
      suppl_provision;
  Ok (Some suppl_provision).

(** [parse_suppl_provisions], on the root of the parsed file. *)
Definition parse_suppl_provisions (root : Element) (law_id : string)
  : Exc (list SupplProvision.t) :=
  let law_body := find "LawBody" root in
  do body <- deref law_body;
  for_in (findall "SupplProvision" body)
    (fun suppl_elem suppl_provisions =>
       do suppl_provision <- _parse_suppl_provision suppl_elem law_id;
       match suppl_provision with
       | Some sp => Ok (suppl_provisions ++ [sp])
       | None => Ok suppl_provisions
       end)
    [].

End LawXMLParser.

Import LawXMLParser.

(** ** Sample documents *)

Definition leaf (t : string) (txt : string) : Element :=
  mkElement t ∅ (Some txt) [].

Definition node (t : string) (attrs : gmap string string)
  (kids : list Element) : Element :=
  mkElement t attrs None kids.

Definition sample_paragraph (n : string) (frags : list string) : Element :=
  node "Paragraph" {[ "Num" := n ]}
    [ node "ParagraphSentence" ∅ (map (leaf "Sentence") frags) ].

Definition sample_article (n : string) (paras : list Element) : Element :=
  node "Article" {[ "Num" := n ]} paras.

Definition sample_item (n : string) (frags : list string) : Element :=
  node "Item" {[ "Num" := n ]}
    [ node "ItemSentence" ∅ (map (leaf "Sentence") frags) ].

(** An article numbered "2_2" (article 2 branch 2) with one paragraph of two
    sentences. *)
Definition article_2_2 : Element :=
  sample_article "2_2" [ sample_paragraph "1" ["First."; "Second."] ].

Definition paragraph_3 : Element := sample_paragraph "3" ["x"].

Definition item_4 : Element := sample_item "4" ["y"].

Definition parsed_item_4 : Item.t :=
  Item.mk "L1_art2_2_para3_item4" "L1_art2_2_para3" 4 "4" "y".

Definition parsed_paragraph_3 : Paragraph.t :=
  Paragraph.mk "L1_art2_2_para3" "L1_art2_2" 3 "x" [].

Definition parsed_article_2_2 : Article.t :=
  Article.mk "L1_art2_2" "L1" 2 None None "First. Second."
    [ Paragraph.mk "L1_art2_2_para1" "L1_art2_2" 1 "First. Second." [] ].

(** An article with two paragraphs of one sentence each. *)
Definition article_two_paragraphs : Element :=
  sample_article "1"
    [ sample_paragraph "1" ["First."]; sample_paragraph "2" ["Second."] ].

Definition parsed_article_two_paragraphs : Article.t :=
  Article.mk "L1_art1" "L1" 1 None None "First."
    [ Paragraph.mk "L1_art1_para1" "L1_art1" 1 "First." [];
      Paragraph.mk "L1_art1_para2" "L1_art1" 2 "Second." [] ].

(** A section with paragraphs and no article. *)
Definition main_without_articles : Element :=
  node "MainProvision" ∅
    [ sample_paragraph "1" ["a"]; sample_paragraph "2" ["b"] ].

Definition parsed_main_article : Article.t :=
  Article.mk "L1_main" "L1" 0 None None "a"
    [ Paragraph.mk "L1_main_para1" "L1_main" 1 "a" [];
      Paragraph.mk "L1_main_para2" "L1_main" 2 "b" [] ].

(** A law whose second article carries the numbering token "abc". *)
Definition law_with_bad_token : Element :=
  node "Law" ∅
    [ node "LawBody" ∅
        [ node "MainProvision" ∅
            [ sample_article "1" [ sample_paragraph "1" ["One."] ];
              sample_article "abc" [];
              sample_article "3" [] ] ] ].

Definition parsed_article_1 : Article.t :=
  Article.mk "L1_art1" "L1" 1 None None "One."
    [ Paragraph.mk "L1_art1_para1" "L1_art1" 1 "One." [] ].

Definition law_attributes : gmap string string :=
  {[ "Era" := "Reiwa"; "Year" := "1"; "LawType" := "Act"; "Num" := "1";
     "PromulgateMonth" := "5"; "PromulgateDay" := "1" ]}.

(** A law with a body and a law number but no title element. *)
Definition law_without_title : Element :=
  node "Law" law_attributes
    [ leaf "LawNum" "Act No. 1 of 2019"; node "LawBody" ∅ [] ].

Definition parsed_law_without_title : Law.t :=
  Law.mk "L1" ACT "Act No. 1 of 2019" "" None None "令和" 1 1
    (mkdate 2019 5 1) None.

(** A law without a body. *)
Definition law_without_body : Element :=
  node "Law" law_attributes [ leaf "LawNum" "Act No. 1 of 2019" ].

(** A supplementary provision of type "Amend" whose amending-law number is
    "X", a tab, "Y". *)
Definition suppl_with_tab : Element :=
  node "SupplProvision"
    {[ "Type" := "Amend"; "AmendLawNum" := String "X" (String "009" "Y") ]} [].

(** A supplementary provision and a chapter that both hold an article
    numbered "1". *)
Definition suppl_with_article_1 : Element :=
  node "SupplProvision" {[ "Type" := "New" ]} [ sample_article "1" [] ].



(** A paragraph with two items, the second with an explicit title. *)
Definition paragraph_with_items : Element :=
  node "Paragraph" {[ "Num" := "1" ]}
    [ node "ParagraphSentence" ∅ [ leaf "Sentence" "Body." ];
      sample_item "1" ["i"];
      node "Item" {[ "Num" := "2" ]}
        [ leaf "ItemTitle" "ii"; node "ItemSentence" ∅ [ leaf "Sentence" "j" ] ] ].

(** A supplementary provision with one article and one direct paragraph. *)
Definition suppl_amend : Element :=
  node "SupplProvision"
    {[ "Type" := "Amend"; "AmendLawNum" := "X Y"; "Extract" := "true" ]}
    [ sample_article "1" [ sample_paragraph "1" ["In force."] ];
      sample_paragraph "2" ["Transitional."] ].

(** A whole law: title, main provision with one article, a chapter with the
    branch article, two supplementary provisions. *)
Definition law_full : Element :=
  node "Law" law_attributes
    [ leaf "LawNum" "Act No. 1 of 2019";
      node "LawBody" ∅
        [ mkElement "LawTitle" {[ "Kana" := "sanpuru" ]} (Some "Sample Act") [];
          node "MainProvision" ∅
            [ sample_article "1" [ paragraph_with_items ] ];
          node "Chapter" {[ "Num" := "1" ]} [ article_2_2 ];
          suppl_with_article_1;
          suppl_amend ] ].

(** The body of [law_full]. *)
Definition law_full_body : Element :=
  node "LawBody" ∅
    [ mkElement "LawTitle" {[ "Kana" := "sanpuru" ]} (Some "Sample Act") [];
      node "MainProvision" ∅
        [ sample_article "1" [ paragraph_with_items ] ];
      node "Chapter" {[ "Num" := "1" ]} [ article_2_2 ];
      suppl_with_article_1;
      suppl_amend ].

(** A law in which an item of the only paragraph carries the number "x". *)
Definition bad_item : Element := node "Item" {[ "Num" := "x" ]} [].

Definition bad_item_paragraph : Element :=
  node "Paragraph" {[ "Num" := "1" ]} [ bad_item ].

Definition bad_item_article : Element :=
  sample_article "1" [ bad_item_paragraph ].

Definition bad_item_chapter : Element :=
  node "Chapter" ∅ [ bad_item_article ].

Definition bad_item_body : Element :=
  node "LawBody" ∅ [ node "MainProvision" ∅ []; bad_item_chapter ].

Definition law_with_bad_item : Element := node "Law" ∅ [ bad_item_body ].

(** A supplementary provision whose article carries the token "abc", after
    a well-formed one. *)
Definition bad_suppl : Element :=
  node "SupplProvision" ∅ [ sample_article "abc" [] ].

Definition bad_suppl_body : Element :=
  node "LawBody" ∅ [ suppl_with_article_1; bad_suppl ].

Definition law_with_bad_suppl : Element := node "Law" ∅ [ bad_suppl_body ].

(** A law laid out with its chapter inside the main provision, the article
    inside the chapter. *)
Definition nested_body : Element :=
  node "LawBody" ∅
    [ node "MainProvision" ∅
        [ node "Chapter" {[ "Num" := "1" ]} [ sample_article "1" [] ] ] ].

Definition law_with_nested_chapter : Element := node "Law" ∅ [ nested_body ].

(** A chapter with an article and, beside it, a paragraph that no article
    encloses. *)
Definition chapter_with_loose_paragraph : Element :=
  node "Chapter" ∅ [ sample_article "1" []; sample_paragraph "1" ["Loose."] ].

(** A chapter whose only paragraph lies inside a section. *)
Definition chapter_with_section : Element :=
  node "Chapter" ∅ [ node "Section" ∅ [ sample_paragraph "1" ["Deep."] ] ].

(** ** Auxiliary notions used in the statements *)

(** The amending-law number as the specification words it: every blank
    (tab, line feed, vertical tab, form feed, carriage return, space)
    becomes an underscore. *)
Fixpoint underscore_blanks (s : string) : string :=
  match s with
  | EmptyString => EmptyString
  | String c rest =>
      String (if Py.isspace c then "_"%char else c) (underscore_blanks rest)
  end.

(** The law type codes of [law_type_mapping]. *)
Definition law_type_codes : list string :=
  [ "Act"; "CabinetOrder"; "Ordinance"; "ImperialOrdinance"; "Rule" ].

(** A calendar date as [datetime.date] accepts it. *)
Definition valid_date (dt : date) : Prop :=
  1 <= year dt <= 9999
  /\ 1 <= month dt <= 12
  /\ 1 <= day dt <= days_in_month (year dt) (month dt).

(** The era names and start years of the specification. *)
Definition recognized_eras : list (string * Z) :=
  [ ("Meiji", 1868); ("Taisho", 1912); ("Showa", 1926); ("Heisei", 1989);
    ("Reiwa", 2019) ].

(** The effect of one round of the paragraph loop on the article. *)
Definition add_paragraph (a : Article.t) (p : Paragraph.t) : Article.t :=
  let a' := append_paragraph a p in
  if negb (Py.truthy (Article.content a'))
  then set_content a' (Paragraph.content p)
  else a'.

(** The first non-empty string of a list, the empty string if there is
    none. *)
Fixpoint first_nonempty (l : list string) : string :=
  match l with
  | [] => ""
  | s :: rest => if Py.truthy s then s else first_nonempty rest
  end.

(** The texts of the fragments that have one. *)
Definition fragment_texts (sentences : list Element) : list string :=
  filter (fun t => t <> "") (omap text sentences).

(** [s] ends with [suffix]. *)
Definition ends_with (suffix s : string) : Prop :=
  exists prefix, s = prefix +:+ suffix.

(** * Properties *)

(** ** The built-ins on sample inputs *)

Example int_plain : Py.int "12" = Ok 12.
Proof. reflexivity. Qed.
Example int_blank_sign : Py.int "  -7 " = Ok (-7).
Proof. reflexivity. Qed.
Example int_grouped : Py.int "1_000" = Ok 1000.
Proof. reflexivity. Qed.
Example int_empty : Py.int "" = Raise ValueError.
Proof. reflexivity. Qed.
Example int_letters : Py.int "abc" = Raise ValueError.
Proof. reflexivity. Qed.
Example int_trailing_us : Py.int "2_" = Raise ValueError.
Proof. reflexivity. Qed.
Example str_neg : Py.str (-30) = "-30".
Proof. reflexivity. Qed.
Example str_zero : Py.str 0 = "0".
Proof. reflexivity. Qed.
Example int_fullwidth : Py.int "２" = Ok 2.
Proof. vm_compute. reflexivity. Qed.
Example int_arabic_indic_grouped : Py.int "-١_٢" = Ok (-12).
Proof. vm_compute. reflexivity. Qed.
Example int_ideographic_space : Py.int "　12　" = Ok 12.
Proof. vm_compute. reflexivity. Qed.
Example int_kanji_numeral : Py.int "二" = Raise ValueError.
Proof. vm_compute. reflexivity. Qed.
Example int_separator_control : Py.int (String "028" "5") = Raise ValueError.
Proof. vm_compute. reflexivity. Qed.


(** ** The result monad and the loops *)

Lemma bind_Ok_inv {A B : Type} (m : Exc A) (k : A -> Exc B) (b : B) :
  bind m k = Ok b -> exists a, m = Ok a /\ k a = Ok b.
Proof.
  destruct m as [a|e]; simpl; [eauto | discriminate].
Qed.

Ltac bind_inv H :=
  let a := fresh "v" in
  let E := fresh "E" in
  apply bind_Ok_inv in H; destruct H as (a & E & H).

(** A loop that parses each element and adds the result to its state
    succeeds exactly when every element parses, and then has added the
    results from left to right. *)
Lemma for_in_collect {A B S : Type} (f : A -> Exc (option B))
  (add : S -> B -> S) (body : A -> S -> Exc S) :
  (forall x s,
     body x s =
     do r <- f x; Ok (match r with Some b => add s b | None => s end)) ->
  (forall x r, f x = Ok r -> is_Some r) ->
  forall xs s s',
    for_in xs body s = Ok s' <->
    exists bs, Forall2 (fun x b => f x = Ok (Some b)) xs bs
               /\ s' = fold_left add bs s.
Proof.
  intros Hbody Hsome xs. induction xs as [|x xs IH]; intros s s'; simpl.
  - split.
    + intros [= <-]. exists []. split; [constructor | reflexivity].
    + intros (bs & HF & ->). inversion HF; subst. reflexivity.
  - rewrite Hbody. destruct (f x) as [r|e] eqn:E; simpl.
    + destruct (Hsome _ _ E) as [b ->]. rewrite IH. split.
      * intros (bs & HF & ->). exists (b :: bs).
        split; [constructor; assumption | reflexivity].
      * intros (bs & HF & ->). inversion HF as [|? b' ? bs' Hb HF']; subst.
        rewrite E in Hb. injection Hb as <-. exists bs'. split; auto.
    + split; [discriminate |].
      intros (bs & HF & _). inversion HF; subst. congruence.
Qed.

(** A loop fails as soon as its body fails on one element whatever the
    state. *)
Lemma for_in_raise {A S : Type} (body : A -> S -> Exc S) (x : A) :
  (forall s, succeeds (body x s) = false) ->
  forall xs, x ∈ xs -> forall s, succeeds (for_in xs body s) = false.
Proof.
  intros Hx xs. induction xs as [|y xs IH]; intros Hin s.
  - inversion Hin.
  - simpl. apply elem_of_cons in Hin as [<- | Hin].
    + specialize (Hx s). destruct (body x s); [discriminate | reflexivity].
    + destruct (body y s) as [s1|e]; simpl; [apply IH, Hin | reflexivity].
Qed.

(** ** What the loops build *)

Lemma fold_append_item (its : list Item.t) (p : Paragraph.t) :
  fold_left append_item its p =
  Paragraph.mk (Paragraph.paragraph_id p) (Paragraph.article_id p)
    (Paragraph.paragraph_num p) (Paragraph.content p)
    (Paragraph.items p ++ its).
Proof.
  revert p. induction its as [|it its IH]; intros p; simpl.
  - rewrite app_nil_r. destruct p; reflexivity.
  - rewrite IH. simpl. rewrite <- app_assoc. reflexivity.
Qed.

Lemma first_nonempty_truthy (l : list string) (s : string) :
  Py.truthy s = true -> first_nonempty (s :: l) = s.
Proof. intros H. simpl. rewrite H. reflexivity. Qed.

Lemma fold_add_paragraph (ps : list Paragraph.t) (a : Article.t) :
  fold_left add_paragraph ps a =
  Article.mk (Article.article_id a) (Article.law_id a)
    (Article.article_num a) (Article.article_title a)
    (Article.article_caption a)
    (if Py.truthy (Article.content a) then Article.content a
     else first_nonempty (map Paragraph.content ps))
    (Article.paragraphs a ++ ps).
Proof.
  revert a. induction ps as [|p ps IH]; intros a; simpl.
  - rewrite app_nil_r. destruct a as [? ? ? ? ? c ?]; simpl.
    destruct c; reflexivity.
  - rewrite IH. unfold add_paragraph. simpl.
    destruct (Py.truthy (Article.content a)) eqn:Ea; simpl.
    + rewrite Ea, <- app_assoc. reflexivity.
    + rewrite <- app_assoc. simpl.
      destruct (Py.truthy (Paragraph.content p)); reflexivity.
Qed.

Lemma fold_append_suppl_article (l : list Article.t) (sp : SupplProvision.t) :
  fold_left append_suppl_article l sp =
  SupplProvision.mk (SupplProvision.suppl_provision_id sp)
    (SupplProvision.law_id sp) (SupplProvision.amend_law_num sp)
    (SupplProvision.suppl_provision_type sp) (SupplProvision.extract sp)
    (SupplProvision.articles sp ++ l) (SupplProvision.paragraphs sp).
Proof.
  revert sp. induction l as [|a l IH]; intros sp; simpl.
  - rewrite app_nil_r. destruct sp; reflexivity.
  - rewrite IH. simpl. rewrite <- app_assoc. reflexivity.
Qed.

Lemma fold_append_suppl_paragraph (l : list Paragraph.t)
  (sp : SupplProvision.t) :
  fold_left append_suppl_paragraph l sp =
  SupplProvision.mk (SupplProvision.suppl_provision_id sp)
    (SupplProvision.law_id sp) (SupplProvision.amend_law_num sp)
    (SupplProvision.suppl_provision_type sp) (SupplProvision.extract sp)
    (SupplProvision.articles sp) (SupplProvision.paragraphs sp ++ l).
Proof.
  revert sp. induction l as [|p l IH]; intros sp; simpl.
  - rewrite app_nil_r. destruct sp; reflexivity.
  - rewrite IH. simpl. rewrite <- app_assoc. reflexivity.
Qed.

Lemma fold_snoc {B : Type} (bs acc : list B) :
  fold_left (fun l b => l ++ [b]) bs acc = acc ++ bs.
Proof.
  revert acc. induction bs as [|b bs IH]; intros acc; simpl.
  - rewrite app_nil_r. reflexivity.
  - rewrite IH, <- app_assoc. reflexivity.
Qed.

(** ** Items *)

Lemma _parse_item_inv (item_elem : Element) (paragraph_id : string)
  (r : option Item.t) :
  _parse_item item_elem paragraph_id = Ok r ->
  exists it,
    r = Some it
    /\ Py.int (get item_elem "Num" "1") = Ok (Item.item_num it)
    /\ Item.item_id it
       = paragraph_id +:+ "_item" +:+ Py.str (Item.item_num it)
    /\ Item.paragraph_id it = paragraph_id
    /\ Item.content it = sentence_content (find "ItemSentence" item_elem).
Proof.
  unfold _parse_item. intros H.
  bind_inv H. bind_inv H. injection H as <-.
  unfold Item_new in E0. bind_inv E0. injection E0 as <-.
  eexists. split; [reflexivity |]. simpl. auto.
Qed.

Lemma _parse_item_is_Some (item_elem : Element) (paragraph_id : string)
  (r : option Item.t) :
  _parse_item item_elem paragraph_id = Ok r -> is_Some r.
Proof.
  intros H. apply _parse_item_inv in H as (it & -> & _). eexists; reflexivity.
Qed.

(** ** Paragraphs *)

Lemma _parse_paragraph_inv (para_elem : Element) (article_id : string)
  (r : option Paragraph.t) :
  _parse_paragraph para_elem article_id = Ok r ->
  exists p,
    r = Some p
    /\ Py.int (get para_elem "Num" "1") = Ok (Paragraph.paragraph_num p)
    /\ Paragraph.paragraph_id p
       = article_id +:+ "_para" +:+ Py.str (Paragraph.paragraph_num p)
    /\ Paragraph.article_id p = article_id
    /\ Paragraph.content p
       = sentence_content (find "ParagraphSentence" para_elem)
    /\ Forall2
         (fun item_elem it =>
            _parse_item item_elem (Paragraph.paragraph_id p) = Ok (Some it))
         (findall "Item" para_elem) (Paragraph.items p).
Proof.
  unfold _parse_paragraph. intros H.
  bind_inv H. bind_inv H. injection H as <-.
  eapply (for_in_collect
            (fun ie => _parse_item ie (article_id +:+ "_para" +:+ Py.str v))
            append_item) in E0.
  - destruct E0 as (its & HF & ->). rewrite fold_append_item. simpl.
    eexists. split; [reflexivity |]. simpl. auto 10.
  - intros x s. destruct (_parse_item x _) as [[it|]|e]; reflexivity.
  - intros x o. apply _parse_item_is_Some.
Qed.

Lemma _parse_paragraph_is_Some (para_elem : Element) (article_id : string)
  (r : option Paragraph.t) :
  _parse_paragraph para_elem article_id = Ok r -> is_Some r.
Proof.
  intros H. apply _parse_paragraph_inv in H as (p & -> & _).
  eexists; reflexivity.
Qed.

Lemma paragraph_step_collect (article_id : string) (para_elem : Element)
  (article : Article.t) :
  paragraph_step article_id para_elem article =
  do r <- _parse_paragraph para_elem article_id;
  Ok (match r with Some p => add_paragraph article p | None => article end).
Proof.
  unfold paragraph_step, add_paragraph.
  destruct (_parse_paragraph para_elem article_id) as [[p|]|e]; simpl;
    try reflexivity.
  destruct (negb _); reflexivity.
Qed.

(** The paragraph loop on a fresh article (empty content, no paragraph)
    succeeds exactly when every paragraph parses; the article then holds the
    parsed paragraphs in order and the first non-empty content. *)
Lemma paragraph_loop (article_id law_id : string) (n : Z)
  (title caption : option string) (elems : list Element) (a : Article.t) :
  for_in elems (paragraph_step article_id)
    (Article.mk article_id law_id n title caption "" []) = Ok a <->
  exists ps,
    Forall2 (fun pe p => _parse_paragraph pe article_id = Ok (Some p))
      elems ps
    /\ a = Article.mk article_id law_id n title caption
             (first_nonempty (map Paragraph.content ps)) ps.
Proof.
  rewrite (for_in_collect (fun pe => _parse_paragraph pe article_id)
             add_paragraph).
  - split; intros (ps & HF & ->); exists ps; (split; [exact HF |]);
      rewrite fold_add_paragraph; reflexivity.
  - intros x s. apply paragraph_step_collect.
  - intros x r. apply _parse_paragraph_is_Some.
Qed.

(** ** Articles *)

Lemma _parse_article_spec (article_elem : Element) (law_id : string)
  (r : option Article.t) :
  _parse_article article_elem law_id = Ok r <->
  exists n ps,
    article_ordinal (get article_elem "Num" "0") = Ok n
    /\ Forall2
         (fun pe p =>
            _parse_paragraph pe (law_id +:+ "_art" +:+ get article_elem "Num" "0")
            = Ok (Some p))
         (findall "Paragraph" article_elem) ps
    /\ r = Some
             (Article.mk (law_id +:+ "_art" +:+ get article_elem "Num" "0")
                law_id n
                (match find "ArticleTitle" article_elem with
                 | Some e => text e
                 | None => None
                 end)
                (match find "ArticleCaption" article_elem with
                 | Some e => text e
                 | None => None
                 end)
                (first_nonempty (map Paragraph.content ps)) ps).
Proof.
  unfold _parse_article. split.
  - intros H. bind_inv H. bind_inv H. injection H as <-.
    apply paragraph_loop in E0 as (ps & HF & ->). eauto.
  - intros (n & ps & Hn & HF & ->). rewrite Hn. simpl.
    match goal with
    | |- bind ?m _ = _ =>
        assert (Hloop : m = Ok (Article.mk
                  (law_id +:+ "_art" +:+ get article_elem "Num" "0") law_id n
                  (match find "ArticleTitle" article_elem with
                   | Some e => text e
                   | None => None
                   end)
                  (match find "ArticleCaption" article_elem with
                   | Some e => text e
                   | None => None
                   end)
                  (first_nonempty (map Paragraph.content ps)) ps))
          by (apply paragraph_loop; eauto)
    end.
    rewrite Hloop. reflexivity.
Qed.

Lemma _parse_article_is_Some (article_elem : Element) (law_id : string)
  (r : option Article.t) :
  _parse_article article_elem law_id = Ok r -> is_Some r.
Proof.
  intros H. apply _parse_article_spec in H as (n & ps & _ & _ & ->).
  eexists; reflexivity.
Qed.

Lemma _parse_article_id (article_elem : Element) (law_id : string)
  (a : Article.t) :
  _parse_article article_elem law_id = Ok (Some a) ->
  Article.article_id a = law_id +:+ "_art" +:+ get article_elem "Num" "0"
  /\ Article.law_id a = law_id.
Proof.
  intros H. apply _parse_article_spec in H as (n & ps & _ & _ & [= ->]).
  simpl. auto.
Qed.

Lemma _parse_article_content (article_elem : Element) (law_id : string)
  (a : Article.t) :
  _parse_article article_elem law_id = Ok (Some a) ->
  Article.content a
  = first_nonempty (map Paragraph.content (Article.paragraphs a)).
Proof.
  intros H. apply _parse_article_spec in H as (n & ps & _ & _ & [= ->]).
  reflexivity.
Qed.

(** An article whose numbering token has no ordinal is not built. *)
Lemma _parse_article_bad_token (article_elem : Element) (law_id : string) :
  succeeds (article_ordinal (get article_elem "Num" "0")) = false ->
  succeeds (_parse_article article_elem law_id) = false.
Proof.
  unfold _parse_article.
  destruct (article_ordinal _); [discriminate | reflexivity].
Qed.

Lemma article_loop (law_id : string) (elems : list Element)
  (acc arts : list Article.t) :
  for_in elems (article_step law_id) acc = Ok arts <->
  exists l,
    Forall2 (fun e a => _parse_article e law_id = Ok (Some a)) elems l
    /\ arts = acc ++ l.
Proof.
  rewrite (for_in_collect (fun e => _parse_article e law_id)
             (fun l a => l ++ [a])).
  - split; intros (l & HF & ->); exists l; (split; [exact HF |]);
      rewrite fold_snoc; reflexivity.
  - intros x s. unfold article_step.
    destruct (_parse_article x law_id) as [[a|]|e]; reflexivity.
  - intros x r. apply _parse_article_is_Some.
Qed.

(** ** When an element is built *)

Lemma Forall2_exists {A B : Type} (P : A -> B -> Prop) (l : list A) :
  (forall x, x ∈ l -> exists y, P x y) -> exists k, Forall2 P l k.
Proof.
  induction l as [|x l IH]; intros H.
  - exists []. constructor.
  - destruct (H x) as [y Hy]; [apply elem_of_cons; auto |].
    destruct IH as [k Hk].
    + intros x' Hx'. apply H. apply elem_of_cons. auto.
    + exists (y :: k). constructor; assumption.
Qed.

Lemma _parse_item_ok (item_elem : Element) (paragraph_id title : string)
  (n : Z) :
  Py.int (get item_elem "Num" "1") = Ok n ->
  match find "ItemTitle" item_elem with
  | Some e => text e
  | None => Some (Py.str n)
  end = Some title ->
  _parse_item item_elem paragraph_id
  = Ok (Some (Item.mk (paragraph_id +:+ "_item" +:+ Py.str n) paragraph_id n
                title (sentence_content (find "ItemSentence" item_elem)))).
Proof.
  intros Hn Ht. unfold _parse_item. rewrite Hn. simpl.
  unfold Item_new. rewrite Ht. reflexivity.
Qed.

Lemma _parse_paragraph_ok (para_elem : Element) (article_id : string) (n : Z)
  (its : list Item.t) :
  Py.int (get para_elem "Num" "1") = Ok n ->
  Forall2
    (fun ie it =>
       _parse_item ie (article_id +:+ "_para" +:+ Py.str n) = Ok (Some it))
    (findall "Item" para_elem) its ->
  _parse_paragraph para_elem article_id
  = Ok (Some (Paragraph.mk (article_id +:+ "_para" +:+ Py.str n) article_id n
                (sentence_content (find "ParagraphSentence" para_elem)) its)).
Proof.
  intros Hn HF. unfold _parse_paragraph. rewrite Hn. simpl.
  match goal with
  | |- bind ?m _ = _ =>
      assert (Hloop : m = Ok (Paragraph.mk
                (article_id +:+ "_para" +:+ Py.str n) article_id n
                (sentence_content (find "ParagraphSentence" para_elem)) its))
  end.
  { apply (for_in_collect
             (fun ie => _parse_item ie (article_id +:+ "_para" +:+ Py.str n))
             append_item).
    - intros x s. destruct (_parse_item x _) as [[it|]|e]; reflexivity.
    - intros x o. apply _parse_item_is_Some.
    - exists its. split; [exact HF |]. rewrite fold_append_item. reflexivity. }
  rewrite Hloop. reflexivity.
Qed.

(** ** C1: identifier derivation *)

(** C1. An article is built as soon as the ordinal of its [Num] token is
    readable and its paragraphs are built, a paragraph as soon as its number
    is readable and its items are built, an item as soon as its number is
    readable and its title element, if any, has a text. A built article has
    the identifier law_id + "_art" + the raw token, verbatim; a built
    paragraph has article_id + "_para" + its paragraph number; a built item
    has paragraph_id + "_item" + its item number; so elements with the same
    token (or number) under the same parent identifier get the same
    identifier. *)
Theorem identifier_derivation
  (law_id article_id paragraph_id : string)
  (article_elem para_elem item_elem : Element)
  (a : Article.t) (p : Paragraph.t) (it : Item.t) :
  (_parse_article article_elem law_id = Ok (Some a) ->
   Article.article_id a = law_id +:+ "_art" +:+ get article_elem "Num" "0")
  /\ (_parse_paragraph para_elem article_id = Ok (Some p) ->
      Py.int (get para_elem "Num" "1") = Ok (Paragraph.paragraph_num p)
      /\ Paragraph.paragraph_id p
         = article_id +:+ "_para" +:+ Py.str (Paragraph.paragraph_num p))
  /\ (_parse_item item_elem paragraph_id = Ok (Some it) ->
      Py.int (get item_elem "Num" "1") = Ok (Item.item_num it)
      /\ Item.item_id it
         = paragraph_id +:+ "_item" +:+ Py.str (Item.item_num it))
  /\ (forall article_elem' a',
        _parse_article article_elem law_id = Ok (Some a) ->
        _parse_article article_elem' law_id = Ok (Some a') ->
        get article_elem' "Num" "0" = get article_elem "Num" "0" ->
        Article.article_id a' = Article.article_id a)
  /\ (forall para_elem' p',
        _parse_paragraph para_elem article_id = Ok (Some p) ->
        _parse_paragraph para_elem' article_id = Ok (Some p') ->
        Paragraph.paragraph_num p' = Paragraph.paragraph_num p ->
        Paragraph.paragraph_id p' = Paragraph.paragraph_id p)
  /\ (forall item_elem' it',
        _parse_item item_elem paragraph_id = Ok (Some it) ->
        _parse_item item_elem' paragraph_id = Ok (Some it') ->
        Item.item_num it' = Item.item_num it ->
        Item.item_id it' = Item.item_id it)
  /\ (forall n,
        article_ordinal (get article_elem "Num" "0") = Ok n ->
        (forall pe,
           pe ∈ findall "Paragraph" article_elem ->
           exists q,
             _parse_paragraph pe
               (law_id +:+ "_art" +:+ get article_elem "Num" "0")
             = Ok (Some q)) ->
        exists a',
          _parse_article article_elem law_id = Ok (Some a')
          /\ Article.article_num a' = n
          /\ Article.article_id a'
             = law_id +:+ "_art" +:+ get article_elem "Num" "0")
  /\ (forall n,
        Py.int (get para_elem "Num" "1") = Ok n ->
        (forall ie,
           ie ∈ findall "Item" para_elem ->
           exists i,
             _parse_item ie (article_id +:+ "_para" +:+ Py.str n)
             = Ok (Some i)) ->
        exists p',
          _parse_paragraph para_elem article_id = Ok (Some p')
          /\ Paragraph.paragraph_num p' = n
          /\ Paragraph.paragraph_id p' = article_id +:+ "_para" +:+ Py.str n)
  /\ (forall n,
        Py.int (get item_elem "Num" "1") = Ok n ->
        (forall t, find "ItemTitle" item_elem = Some t -> is_Some (text t)) ->
        exists it',
          _parse_item item_elem paragraph_id = Ok (Some it')
          /\ Item.item_num it' = n
          /\ Item.item_id it' = paragraph_id +:+ "_item" +:+ Py.str n).
Proof.
  split; [| split; [| split; [| split; [| split; [| split; [| split;
    [| split]]]]]]].
  - intros H. apply _parse_article_id in H. tauto.
  - intros H.
    apply _parse_paragraph_inv in H as (p' & [= <-] & Hn & Hid & _). auto.
  - intros H. apply _parse_item_inv in H as (it' & [= <-] & Hn & Hid & _). auto.
  - intros e' a' H H' Htok.
    apply _parse_article_id in H as [-> _].
    apply _parse_article_id in H' as [-> _]. rewrite Htok. reflexivity.
  - intros e' p' H H' Hnum.
    apply _parse_paragraph_inv in H as (q & [= <-] & _ & -> & _).
    apply _parse_paragraph_inv in H' as (q' & [= <-] & _ & -> & _).
    rewrite Hnum. reflexivity.
  - intros e' it' H H' Hnum.
    apply _parse_item_inv in H as (q & [= <-] & _ & -> & _).
    apply _parse_item_inv in H' as (q' & [= <-] & _ & -> & _).
    rewrite Hnum. reflexivity.
  - intros n Hn Hps. apply Forall2_exists in Hps as [ps HF].
    eexists. split.
    + apply _parse_article_spec. exists n, ps. split; [exact Hn |].
      split; [exact HF | reflexivity].
    + split; reflexivity.
  - intros n Hn His. apply Forall2_exists in His as [its HF].
    eexists. split; [exact (_parse_paragraph_ok _ _ _ _ Hn HF) |].
    split; reflexivity.
  - intros n Hn Ht.
    assert (Htitle : exists title,
              match find "ItemTitle" item_elem with
              | Some e => text e
              | None => Some (Py.str n)
              end = Some title).
    { destruct (find "ItemTitle" item_elem) as [t|]; [| eauto].
      destruct (Ht t eq_refl) as [x ->]. eauto. }
    destruct Htitle as [title Htitle].
    eexists. split; [exact (_parse_item_ok _ paragraph_id _ _ Hn Htitle) |].
    split; reflexivity.
Qed.

Lemma identifier_derivation_witness :
  (Article.article_id parsed_article_2_2 = "L1_art2_2"
   /\ Paragraph.paragraph_id parsed_paragraph_3 = "L1_art2_2_para3"
   /\ Item.item_id parsed_item_4 = "L1_art2_2_para3_item4")
  /\ (exists a',
        _parse_article article_2_2 "L1" = Ok (Some a')
        /\ Article.article_num a' = 2
        /\ Article.article_id a' = "L1" +:+ "_art" +:+ "2_2")
  /\ (exists it',
        _parse_item item_4 "L1_art2_2_para3" = Ok (Some it')
        /\ Item.item_num it' = 4
        /\ Item.item_id it' = "L1_art2_2_para3" +:+ "_item" +:+ Py.str 4).
Proof.
  destruct (identifier_derivation "L1" "L1_art2_2" "L1_art2_2_para3"
              article_2_2 paragraph_3 item_4
              parsed_article_2_2 parsed_paragraph_3 parsed_item_4)
    as (Ha & Hp & Hi & _ & _ & _ & Hbuilt & _ & Hitem).
  split; [split; [| split] | split].
  - apply Ha. vm_compute. reflexivity.
  - apply Hp. vm_compute. reflexivity.
  - apply Hi. vm_compute. reflexivity.
  - apply (Hbuilt 2).
    + vm_compute. reflexivity.
    + intros pe Hin.
      assert (Hpe : pe = sample_paragraph "1" ["First."; "Second."]).
      { apply list_elem_of_In in Hin.
        change (In pe [sample_paragraph "1" ["First."; "Second."]]) in Hin.
        destruct Hin as [<- | []]. reflexivity. }
      subst pe. eexists. vm_compute. reflexivity.
  - apply (Hitem 4).
    + vm_compute. reflexivity.
    + intros t Ht. vm_compute in Ht. discriminate.
Defined.

(** ** C10: the content of a paragraph *)

Lemma join_sentences_fragments (sentences : list Element) :
  join_sentences sentences = String.concat " " (fragment_texts sentences).
Proof.
  unfold join_sentences, fragment_texts, Py.join. f_equal.
  induction sentences as [|s l IH]; [reflexivity |].
  simpl. destruct (text s) as [t|]; simpl; [| exact IH].
  destruct t as [|c t]; simpl.
  - rewrite filter_cons_False by (intros H; apply H; reflexivity). exact IH.
  - rewrite filter_cons_True by discriminate. f_equal. exact IH.
Qed.



(** ** Sections and chapters *)

Lemma _parse_articles_from_element_spec (element : Element)
  (law_id : string) (arts : list Article.t) :
  _parse_articles_from_element element law_id = Ok arts <->
  exists l,
    Forall2 (fun e a => _parse_article e law_id = Ok (Some a))
      (findall "Article" element) l
    /\ if nonempty (findall "Paragraph" element)
          && negb (nonempty (findall "Article" element))
       then exists ps,
              Forall2
                (fun pe p =>
                   _parse_paragraph pe (law_id +:+ "_main") = Ok (Some p))
                (findall "Paragraph" element) ps
              /\ arts = l ++ [Article.mk (law_id +:+ "_main") law_id 0 None
                                None (first_nonempty (map Paragraph.content ps))
                                ps]
       else arts = l.
Proof.
  unfold _parse_articles_from_element. split.
  - intros H. bind_inv H. apply article_loop in E as (l & HF & ->).
    exists l. split; [exact HF |]. simpl in H.
    destruct (nonempty (findall "Paragraph" element)
              && negb (nonempty (findall "Article" element))).
    + bind_inv H. injection H as <-.
      apply paragraph_loop in E as (ps & HP & ->). eauto.
    + injection H as <-. reflexivity.
  - intros (l & HF & H).
    assert (Hl : for_in (findall "Article" element) (article_step law_id) []
                 = Ok l) by (apply article_loop; eauto).
    rewrite Hl. simpl.
    destruct (nonempty (findall "Paragraph" element)
              && negb (nonempty (findall "Article" element))).
    + destruct H as (ps & HP & ->).
      match goal with
      | |- bind ?m _ = _ =>
          assert (Hloop : m = Ok (Article.mk (law_id +:+ "_main") law_id 0
                    None None (first_nonempty (map Paragraph.content ps)) ps))
            by (apply paragraph_loop; eauto)
      end.
      rewrite Hloop. reflexivity.
    + rewrite H. reflexivity.
Qed.

Lemma _parse_articles_from_element_bad_article (element article_elem : Element)
  (law_id : string) :
  article_elem ∈ findall "Article" element ->
  succeeds (_parse_article article_elem law_id) = false ->
  succeeds (_parse_articles_from_element element law_id) = false.
Proof.
  intros Hin Hbad. unfold _parse_articles_from_element.
  pose proof (for_in_raise (article_step law_id) article_elem) as Hloop.
  assert (Hstep : forall s, succeeds (article_step law_id article_elem s)
                            = false).
  { intros s. unfold article_step.
    destruct (_parse_article article_elem law_id);
      [discriminate | reflexivity]. }
  specialize (Hloop Hstep _ Hin []).
  destruct (for_in _ _ _); [discriminate | reflexivity].
Qed.

(** ** C4: the content of an article *)

(** C4, as stated, fails: the content of an article with the paragraphs
    "First." and "Second." is "First.", not a concatenation of both, with
    or without a separator. *)
Lemma article_content_not_concatenated :
  _parse_article article_two_paragraphs "L1"
  = Ok (Some parsed_article_two_paragraphs)
  /\ Article.content parsed_article_two_paragraphs = "First."
  /\ Article.content parsed_article_two_paragraphs
     <> String.concat ""
          (map Paragraph.content
             (Article.paragraphs parsed_article_two_paragraphs))
  /\ Article.content parsed_article_two_paragraphs
     <> String.concat " "
          (map Paragraph.content
             (Article.paragraphs parsed_article_two_paragraphs)).
Proof.
  split; [vm_compute; reflexivity |].
  split; [reflexivity |].
  split; vm_compute; discriminate.
Qed.

(** C4, amended. The content of every built article, parsed from an article
    element or synthesized for a section without articles, is the content of
    its first paragraph whose content is not empty, and the empty string when
    there is none. *)
Theorem article_content_first_nonempty (law_id : string) (a : Article.t) :
  (exists article_elem, _parse_article article_elem law_id = Ok (Some a))
  \/ (exists element arts,
        _parse_articles_from_element element law_id = Ok arts /\ a ∈ arts) ->
  Article.content a
  = first_nonempty (map Paragraph.content (Article.paragraphs a)).
Proof.
  intros [[e H] | (element & arts & H & Hin)].
  - exact (_parse_article_content _ _ _ H).
  - apply _parse_articles_from_element_spec in H as (l & HF & H).
    assert (Hl : forall x, x ∈ l ->
              Article.content x
              = first_nonempty (map Paragraph.content (Article.paragraphs x))).
    { intros x Hx. apply list_elem_of_lookup in Hx as [i Hi].
      destruct (Forall2_lookup_r _ _ _ _ _ HF Hi) as (e & _ & He).
      exact (_parse_article_content _ _ _ He). }
    destruct (nonempty (findall "Paragraph" element)
              && negb (nonempty (findall "Article" element))).
    + destruct H as (ps & _ & ->).
      apply elem_of_app in Hin as [Hin | Hin]; [auto |].
      apply list_elem_of_singleton in Hin as ->. reflexivity.
    + subst arts. auto.
Qed.

Lemma article_content_first_nonempty_witness :
  Article.content parsed_article_two_paragraphs
  = first_nonempty
      (map Paragraph.content (Article.paragraphs parsed_article_two_paragraphs)).
Proof.
  apply (article_content_first_nonempty "L1").
  left. exists article_two_paragraphs. vm_compute. reflexivity.
Defined.

(** ** C8: the implicit article of a section without articles *)

Lemma ends_with_append (prefix suffix : string) :
  ends_with suffix (prefix +:+ suffix).
Proof. exists prefix. reflexivity. Qed.

(** C8, as stated, fails: a chapter can hold a paragraph that no article
    encloses and still get no implicit article. Beside an article the
    paragraph is not built at all, and the result is the article alone;
    inside a section the paragraph is not visited and the result is empty. *)
Lemma loose_paragraph_not_synthesized :
  findall "Paragraph" chapter_with_loose_paragraph
  = [ sample_paragraph "1" ["Loose."] ]
  /\ _parse_articles_from_element chapter_with_loose_paragraph "L1"
     = Ok [ Article.mk "L1_art1" "L1" 1 None None "" [] ]
  /\ ~ (exists a,
          a ∈ [ Article.mk "L1_art1" "L1" 1 None None "" [] ]
          /\ Article.article_num a = 0)
  /\ _parse_articles_from_element chapter_with_section "L1" = Ok [].
Proof.
  split; [vm_compute; reflexivity |].
  split; [vm_compute; reflexivity |].
  split; [| vm_compute; reflexivity].
  intros (a & Hin & Hnum). apply list_elem_of_singleton in Hin. subst a.
  discriminate Hnum.
Qed.

(** C8, amended. For a section or chapter with direct paragraph elements and
    no direct article element, every successful run yields exactly one
    article, with number 0 and identifier law_id + "_main", whose paragraphs
    are the parsed paragraph elements in document order; and the run
    succeeds as soon as each paragraph element parses. *)
Theorem implicit_article_synthesized (element : Element) (law_id : string) :
  findall "Paragraph" element <> [] ->
  findall "Article" element = [] ->
  (forall arts,
     _parse_articles_from_element element law_id = Ok arts ->
     exists a,
       arts = [a]
       /\ Article.article_num a = 0
       /\ Article.article_id a = law_id +:+ "_main"
       /\ ends_with "_main" (Article.article_id a)
       /\ Forall2
            (fun pe p => _parse_paragraph pe (Article.article_id a)
                         = Ok (Some p))
            (findall "Paragraph" element) (Article.paragraphs a))
  /\ (forall ps,
        Forall2
          (fun pe p => _parse_paragraph pe (law_id +:+ "_main") = Ok (Some p))
          (findall "Paragraph" element) ps ->
        exists a,
          _parse_articles_from_element element law_id = Ok [a]
          /\ Article.article_num a = 0
          /\ Article.article_id a = law_id +:+ "_main"
          /\ Article.paragraphs a = ps).
Proof.
  intros Hpara Hart.
  assert (Hcond : nonempty (findall "Paragraph" element)
                  && negb (nonempty (findall "Article" element)) = true).
  { rewrite Hart. destruct (findall "Paragraph" element); [congruence |].
    reflexivity. }
  split.
  - intros arts H.
    apply _parse_articles_from_element_spec in H as (l & HF & H).
    rewrite Hcond in H. destruct H as (ps & HP & ->).
    rewrite Hart in HF. inversion HF; subst. simpl.
    eexists. split; [reflexivity |]. simpl.
    repeat split; [apply ends_with_append | exact HP].
  - intros ps HP. eexists. split.
    + apply _parse_articles_from_element_spec. exists [].
      rewrite Hcond, Hart. split; [constructor |].
      exists ps. split; [exact HP | reflexivity].
    + simpl. auto.
Qed.

Lemma implicit_article_synthesized_witness :
  _parse_articles_from_element main_without_articles "L1"
  = Ok [parsed_main_article]
  /\ exists a,
       [parsed_main_article] = [a]
       /\ Article.article_num a = 0
       /\ Article.article_id a = "L1_main".
Proof.
  assert (H : _parse_articles_from_element main_without_articles "L1"
              = Ok [parsed_main_article]) by (vm_compute; reflexivity).
  split; [exact H |].
  destruct (implicit_article_synthesized main_without_articles "L1")
    as [Hone _].
  - vm_compute. discriminate.
  - vm_compute. reflexivity.
  - destruct (Hone _ H) as (a & Ha & Hn & Hid & _). exists a. auto.
Defined.

(** ** C2: a malformed numbering token *)

(** C2, as stated, fails: with the token "abc" on the second of three
    articles, [parse_articles] raises and returns no article, although the
    first article alone is built without error. *)
Lemma bad_token_not_scoped :
  article_ordinal "abc" = Raise ValueError
  /\ _parse_article (sample_article "1" [ sample_paragraph "1" ["One."] ]) "L1"
     = Ok (Some parsed_article_1)
  /\ parse_articles law_with_bad_token "L1" = Raise ValueError
  /\ ~ (exists arts, parse_articles law_with_bad_token "L1" = Ok arts).
Proof.
  assert (H : parse_articles law_with_bad_token "L1" = Raise ValueError)
    by (vm_compute; reflexivity).
  repeat split; try (vm_compute; reflexivity).
  intros [arts Harts]. rewrite H in Harts. discriminate.
Qed.

Lemma succeeds_false {A : Type} (m : Exc A) :
  succeeds m = false <-> exists e, m = Raise e.
Proof.
  destruct m as [a|e]; simpl; split; try discriminate; eauto.
  intros [e' H]. discriminate.
Qed.

(** C2, amended. When an article element directly under the main provision
    or under a chapter carries a numbering token of which [int] cannot read
    the ordinal, the exception leaves [parse_articles]: the whole call
    raises and no article is returned. *)
Theorem bad_token_aborts_parse_articles
  (root body container article_elem : Element) (law_id : string) :
  find "LawBody" root = Some body ->
  find "MainProvision" body = Some container
  \/ container ∈ findall "Chapter" body ->
  article_elem ∈ findall "Article" container ->
  succeeds (article_ordinal (get article_elem "Num" "0")) = false ->
  (exists e, parse_articles root law_id = Raise e)
  /\ (forall arts, parse_articles root law_id <> Ok arts).
Proof.
  intros Hbody Hcont Hin Hbad.
  assert (Hfail : succeeds (parse_articles root law_id) = false).
  { assert (Hsec : succeeds (_parse_articles_from_element container law_id)
                   = false).
    { eapply _parse_articles_from_element_bad_article; [exact Hin |].
      apply _parse_article_bad_token, Hbad. }
    unfold parse_articles. rewrite Hbody. simpl.
    destruct Hcont as [Hmain | Hchap].
    - rewrite Hmain.
      destruct (_parse_articles_from_element container law_id);
        [discriminate | reflexivity].
    - match goal with
      | |- succeeds (bind ?m _) = false => destruct m as [acc|e]
      end; [| reflexivity].
      simpl. apply (for_in_raise _ container); [| exact Hchap].
      intros s.
      destruct (_parse_articles_from_element container law_id);
        [discriminate | reflexivity]. }
  split.
  - apply succeeds_false, Hfail.
  - intros arts H. rewrite H in Hfail. discriminate.
Qed.

Lemma bad_token_aborts_parse_articles_witness :
  exists e, parse_articles law_with_bad_token "L1" = Raise e.
Proof.
  refine (proj1 (bad_token_aborts_parse_articles law_with_bad_token
            (node "LawBody" ∅
               [ node "MainProvision" ∅
                   [ sample_article "1" [ sample_paragraph "1" ["One."] ];
                     sample_article "abc" [];
                     sample_article "3" [] ] ])
            (node "MainProvision" ∅
               [ sample_article "1" [ sample_paragraph "1" ["One."] ];
                 sample_article "abc" [];
                 sample_article "3" [] ])
            (sample_article "abc" []) "L1" _ _ _ _)).
  - vm_compute. reflexivity.
  - left. vm_compute. reflexivity.
  - unfold findall. simpl children.
    apply list_elem_of_filter. split; [reflexivity |].
    apply list_elem_of_In. simpl. auto.
  - vm_compute. reflexivity.
Defined.

(** A token written in full-width digits is read like its ASCII form: the
    article is built, with the token kept verbatim in the identifier. *)
Example fullwidth_token_is_read :
  _parse_article (sample_article "２" []) "L1"
  = Ok (Some (Article.mk "L1_art２" "L1" 2 None None "" [])).
Proof. vm_compute. reflexivity. Qed.

(** ** C3: structurally required containers *)

(** C3, as stated, fails: a law with a body and no title element is parsed
    without error, into a law with the empty title. *)
Lemma missing_title_not_fatal :
  find "LawBody" law_without_title = Some (node "LawBody" ∅ [])
  /\ find "LawTitle" (node "LawBody" ∅ []) = None
  /\ parse_law_file "L1_20190501" law_without_title
     = Ok parsed_law_without_title
  /\ Law.law_title parsed_law_without_title = "".
Proof. repeat split; vm_compute; reflexivity. Qed.

(** C3, amended. Without a body element [parse_law_file] raises and builds
    no law. With a body and no title element it raises no structural error:
    when the integer attributes and the date are accepted and the law number
    element is absent or has a text, a law is built, with the empty title,
    no reading and no abbreviation, and with the empty law number when the
    law number element is absent. *)
Theorem parse_law_required_containers (stem : string) (root : Element) :
  (find "LawBody" root = None ->
   (exists e, parse_law_file stem root = Raise e)
   /\ forall law, parse_law_file stem root <> Ok law)
  /\ (forall body y n m d pd,
        find "LawBody" root = Some body ->
        find "LawTitle" body = None ->
        int_attr root "Year" 0 = Ok y ->
        int_attr root "Num" 0 = Ok n ->
        int_attr root "PromulgateMonth" 1 = Ok m ->
        int_attr root "PromulgateDay" 1 = Ok d ->
        _convert_to_gregorian_date (get root "Era" "") y m d = Ok pd ->
        find "LawNum" root = None
        \/ (exists e t, find "LawNum" root = Some e /\ text e = Some t) ->
        exists law,
          parse_law_file stem root = Ok law
          /\ Law.law_title law = ""
          /\ Law.law_title_kana law = None
          /\ Law.abbreviation law = None
          /\ (find "LawNum" root = None -> Law.law_num law = "")).
Proof.
  split.
  - intros Hbody.
    assert (Hfail : succeeds (parse_law_file stem root) = false).
    { unfold parse_law_file. rewrite Hbody.
      repeat match goal with
             | |- succeeds (bind ?m _) = false =>
                 destruct m; simpl; [| reflexivity]
             end.
      reflexivity. }
    split.
    + apply succeeds_false, Hfail.
    + intros law H. rewrite H in Hfail. discriminate.
  - intros body y n m d pd Hbody Htitle Hy Hn Hm Hd Hpd Hnum.
    unfold parse_law_file.
    rewrite Hy, Hn, Hm, Hd. simpl. rewrite Hpd, Hbody. simpl.
    rewrite Htitle. unfold Law_new.
    destruct Hnum as [Hnone | (e & t & He & Ht)].
    + rewrite Hnone. simpl. eexists. split; [reflexivity |]. simpl. auto.
    + rewrite He, Ht. simpl. eexists. split; [reflexivity |]. simpl.
      repeat split. intros H. discriminate.
Qed.

Lemma parse_law_required_containers_witness :
  (exists e, parse_law_file "L1_20190501" law_without_body = Raise e)
  /\ exists law,
       parse_law_file "L1_20190501" law_without_title = Ok law
       /\ Law.law_title law = "".
Proof.
  split.
  - apply (proj1 (parse_law_required_containers "L1_20190501"
                    law_without_body)).
    vm_compute. reflexivity.
  - destruct (proj2 (parse_law_required_containers "L1_20190501"
                       law_without_title)
                (node "LawBody" ∅ []) 1 1 5 1 (mkdate 2019 5 1))
      as (law & Hlaw & Ht & _); try (vm_compute; reflexivity).
    + right. exists (leaf "LawNum" "Act No. 1 of 2019"), "Act No. 1 of 2019".
      split; vm_compute; reflexivity.
    + exists law. auto.
Defined.

(** A title or law number element that is present but has no text is not
    covered by the defaults: its None text reaches a required field. *)
Example empty_title_element_rejected :
  parse_law_file "L1_20190501"
    (node "Law" law_attributes
       [ leaf "LawNum" "Act No. 1 of 2019";
         node "LawBody" ∅ [ node "LawTitle" ∅ [] ] ])
  = Raise ValidationError.
Proof. vm_compute. reflexivity. Qed.

(** ** C5 and C6: era conversion *)

Lemma era_start_years_lookup (era : string) (start : Z) :
  era_start_years !! era = Some start <-> (era, start) ∈ recognized_eras.
Proof.
  unfold era_start_years, recognized_eras.
  rewrite !lookup_insert_Some, lookup_singleton_Some, !elem_of_cons,
    elem_of_nil.
  split.
  - intros H.
    repeat (destruct H as [[<- <-] | [_ H]]; [auto 10 |]).
    destruct H as [<- <-]. auto 10.
  - intros H.
    repeat (destruct H as [[= -> ->] | H];
            [repeat (first [ left; split; reflexivity
                           | right; split; [discriminate |]
                           | split; reflexivity ]) |]).
    contradiction.
Qed.

Lemma era_start_years_unknown (era : string) :
  era ∉ recognized_eras.*1 -> era_start_years !! era = None.
Proof.
  intros Hnot. destruct (era_start_years !! era) as [start|] eqn:E;
    [| reflexivity].
  exfalso. apply Hnot. apply era_start_years_lookup in E.
  apply list_elem_of_fmap. exists (era, start). auto.
Qed.

Lemma date_new_year (y m d : Z) (dt : date) :
  date_new y m d = Ok dt -> dt = mkdate y m d.
Proof.
  unfold date_new. intros H.
  repeat match type of H with
         | (if ?c then _ else _) = _ => destruct c; try discriminate
         end.
  injection H as <-. reflexivity.
Qed.

(** C5. The start-year table holds exactly the five eras Meiji 1868,
    Taisho 1912, Showa 1926, Heisei 1989 and Reiwa 2019; for a recognized
    era the calendar year is start + y - 1, which is the year of every date
    the conversion returns; year 1 is the start year, and Reiwa 1 is 2019. *)
Theorem era_conversion_recognized (era : string) (start y m d : Z) :
  (era, start) ∈ recognized_eras ->
  era_start_years !! era = Some start
  /\ (forall e s, era_start_years !! e = Some s -> (e, s) ∈ recognized_eras)
  /\ size era_start_years = 5%nat
  /\ gregorian_year era y = start + y - 1
  /\ _convert_to_gregorian_date era y m d = date_new (start + y - 1) m d
  /\ (forall dt,
        _convert_to_gregorian_date era y m d = Ok dt -> year dt = start + y - 1)
  /\ gregorian_year era 1 = start
  /\ _convert_to_gregorian_date "Reiwa" 1 5 1 = Ok (mkdate 2019 5 1).
Proof.
  intros Hin. apply era_start_years_lookup in Hin as Hlook.
  assert (Hy : forall y', gregorian_year era y' = start + y' - 1).
  { intros y'. unfold gregorian_year. rewrite Hlook. reflexivity. }
  split; [exact Hlook |].
  split; [intros e s; apply era_start_years_lookup |].
  split; [vm_compute; reflexivity |].
  split; [apply Hy |].
  unfold _convert_to_gregorian_date. rewrite Hy.
  split; [reflexivity |].
  split.
  - intros dt H. apply date_new_year in H as ->. reflexivity.
  - split; [rewrite Hy; lia | vm_compute; reflexivity].
Qed.

Lemma era_conversion_recognized_witness :
  gregorian_year "Heisei" 31 = 1989 + 31 - 1
  /\ _convert_to_gregorian_date "Heisei" 31 4 30 = Ok (mkdate 2019 4 30).
Proof.
  destruct (era_conversion_recognized "Heisei" 1989 31 4 30)
    as (_ & _ & _ & Hy & Hd & _).
  - unfold recognized_eras. rewrite !elem_of_cons. auto.
  - split; [exact Hy |]. rewrite Hd. vm_compute. reflexivity.
Defined.

(** C6. For an era name outside the five, the conversion uses the start
    year 1868 of Meiji: the calendar year is 1868 + y - 1 and the result is
    the one for Meiji, a date whenever that year, month and day form one;
    the only errors are those of the date constructor. *)
Theorem era_conversion_fallback (era : string) (y m d : Z) :
  era ∉ recognized_eras.*1 ->
  gregorian_year era y = 1868 + y - 1
  /\ _convert_to_gregorian_date era y m d = date_new (1868 + y - 1) m d
  /\ _convert_to_gregorian_date era y m d
     = _convert_to_gregorian_date "Meiji" y m d
  /\ (forall dt,
        date_new (1868 + y - 1) m d = Ok dt ->
        _convert_to_gregorian_date era y m d = Ok dt
        /\ year dt = 1868 + y - 1).
Proof.
  intros Hnot. apply era_start_years_unknown in Hnot.
  assert (Hy : gregorian_year era y = 1868 + y - 1).
  { unfold gregorian_year. rewrite Hnot. reflexivity. }
  unfold _convert_to_gregorian_date. rewrite Hy.
  repeat split; try assumption.
  apply date_new_year in H as ->. reflexivity.
Qed.

Lemma era_conversion_fallback_witness :
  gregorian_year "Ansei" 3 = 1870
  /\ _convert_to_gregorian_date "Ansei" 3 2 1 = Ok (mkdate 1870 2 1).
Proof.
  destruct (era_conversion_fallback "Ansei" 3 2 1) as (Hy & Hd & _).
  - unfold recognized_eras. simpl. rewrite !elem_of_cons, elem_of_nil.
    intros H. repeat destruct H as [H | H]; try discriminate; exact H.
  - split; [rewrite Hy; reflexivity | rewrite Hd; vm_compute; reflexivity].
Defined.

(** ** Supplementary provisions *)

Lemma _parse_suppl_provision_inv (suppl_elem : Element) (law_id : string)
  (r : option SupplProvision.t) :
  _parse_suppl_provision suppl_elem law_id = Ok r ->
  exists sp,
    r = Some sp
    /\ SupplProvision.suppl_provision_id sp
       = suppl_provision_id law_id (get suppl_elem "Type" "New")
           (get_opt suppl_elem "AmendLawNum")
    /\ SupplProvision.law_id sp = law_id
    /\ Forall2 (fun e a => _parse_article e law_id = Ok (Some a))
         (findall "Article" suppl_elem) (SupplProvision.articles sp)
    /\ Forall2
         (fun pe p =>
            _parse_paragraph pe (SupplProvision.suppl_provision_id sp)
            = Ok (Some p))
         (findall "Paragraph" suppl_elem) (SupplProvision.paragraphs sp).
Proof.
  unfold _parse_suppl_provision. intros H.
  bind_inv H. bind_inv H. injection H as <-.
  eapply (for_in_collect (fun e => _parse_article e law_id)
            append_suppl_article) in E.
  - destruct E as (l & HA & ->).
    eapply (for_in_collect
              (fun pe => _parse_paragraph pe
                           (suppl_provision_id law_id
                              (get suppl_elem "Type" "New")
                              (get_opt suppl_elem "AmendLawNum")))
              append_suppl_paragraph) in E0.
    + destruct E0 as (ps & HP & ->).
      rewrite fold_append_suppl_paragraph, fold_append_suppl_article. simpl.
      eexists. split; [reflexivity |]. simpl. auto.
    + intros x s. destruct (_parse_paragraph x _) as [[p|]|e]; reflexivity.
    + intros x o. apply _parse_paragraph_is_Some.
  - intros x s. destruct (_parse_article x law_id) as [[a|]|e]; reflexivity.
  - intros x o. apply _parse_article_is_Some.
Qed.

(** ** C7: articles of a supplementary provision *)



(** ** C9: the identifier of a supplementary provision *)

Lemma append_assoc (s1 s2 s3 : string) :
  (s1 +:+ s2) +:+ s3 = s1 +:+ s2 +:+ s3.
Proof.
  induction s1 as [|c s1 IH]; [reflexivity |].
  change (String c ((s1 +:+ s2) +:+ s3) = String c (s1 +:+ s2 +:+ s3)).
  f_equal. exact IH.
Qed.

(** [str.replace(' ', '_')] changes the spaces and nothing else. *)
Lemma replace_space_get (s : string) (i : nat) :
  String.get i (Py.replace " " "_" s)
  = (fun c => if Ascii.eqb c " " then "_"%char else c) <$> String.get i s.
Proof.
  revert i. induction s as [|c s IH]; intros i; simpl; [reflexivity |].
  destruct i as [|i]; [reflexivity | apply IH].
Qed.

(** C9, as stated, fails: a tab is whitespace, but the amending-law number
    "X<tab>Y" keeps its tab in the identifier, which therefore is not
    "L1_suppl_Amend_X_Y". *)
Lemma suppl_id_keeps_tab :
  Py.isspace "009" = true
  /\ underscore_blanks (String "X" (String "009" "Y")) = "X_Y"
  /\ _parse_suppl_provision suppl_with_tab "L1"
     = Ok (Some (SupplProvision.mk
                   (String.append "L1_suppl_Amend_X" (String "009" "Y"))
                   "L1" (Some (String "X" (String "009" "Y"))) "Amend" false
                   [] []))
  /\ String.append "L1_suppl_Amend_X" (String "009" "Y")
     <> "L1_suppl_Amend" +:+ "_"
        +:+ underscore_blanks (String "X" (String "009" "Y")).
Proof.
  repeat split; try (vm_compute; reflexivity).
  vm_compute. discriminate.
Qed.

(** C9, amended. The identifier of a built supplementary provision is
    law_id + "_suppl_" + type when the amending-law number is absent or
    empty, and otherwise that string followed by "_" and the amending-law
    number in which every space character (and no other character) is
    replaced by an underscore; type "Amend" with the number "X Y" gives
    law_id + "_suppl_Amend_X_Y". *)
Theorem suppl_provision_id_derivation (suppl_elem : Element)
  (law_id : string) (sp : SupplProvision.t) :
  _parse_suppl_provision suppl_elem law_id = Ok (Some sp) ->
  let type := get suppl_elem "Type" "New" in
  (get_opt suppl_elem "AmendLawNum" = None
   \/ get_opt suppl_elem "AmendLawNum" = Some "" ->
   SupplProvision.suppl_provision_id sp = law_id +:+ "_suppl_" +:+ type)
  /\ (forall n,
        get_opt suppl_elem "AmendLawNum" = Some n -> n <> "" ->
        SupplProvision.suppl_provision_id sp
        = (law_id +:+ "_suppl_" +:+ type) +:+ "_" +:+ Py.replace " " "_" n
        /\ String.length (Py.replace " " "_" n) = String.length n
        /\ forall i,
             String.get i (Py.replace " " "_" n)
             = (fun c => if Ascii.eqb c " " then "_"%char else c)
               <$> String.get i n)
  /\ (get_opt suppl_elem "Type" = Some "Amend" ->
      get_opt suppl_elem "AmendLawNum" = Some "X Y" ->
      SupplProvision.suppl_provision_id sp = law_id +:+ "_suppl_Amend_X_Y").
Proof.
  intros H type. subst type.
  apply _parse_suppl_provision_inv in H as (sp' & [= <-] & -> & _).
  unfold suppl_provision_id. repeat split.
  - intros [-> | ->]; reflexivity.
  - rewrite H. destruct n; [congruence | reflexivity].
  - clear. induction n as [|c n IH]; simpl; [reflexivity |].
    rewrite IH. reflexivity.
  - apply replace_space_get.
  - intros Ht Hn. rewrite Hn. unfold get, get_opt in *. rewrite Ht. simpl.
    rewrite !append_assoc. reflexivity.
Qed.

Lemma suppl_provision_id_derivation_witness :
  SupplProvision.suppl_provision_id
    (SupplProvision.mk "L1_suppl_Amend_X_Y" "L1" (Some "X Y") "Amend" false
       [] [])
  = "L1" +:+ "_suppl_Amend_X_Y".
Proof.
  destruct (suppl_provision_id_derivation
              (node "SupplProvision"
                 {[ "Type" := "Amend"; "AmendLawNum" := "X Y" ]} [])
              "L1"
              (SupplProvision.mk "L1_suppl_Amend_X_Y" "L1" (Some "X Y")
                 "Amend" false [] []))
    as (_ & _ & H).
  - vm_compute. reflexivity.
  - apply H; vm_compute; reflexivity.
Defined.

(** * Further properties of the parser *)

Ltac in_findall :=
  unfold findall; simpl children;
  apply list_elem_of_filter; split;
  [reflexivity | apply list_elem_of_In; simpl; auto 10].

(** ** Strings *)

Lemma append_cons (c : ascii) (s t : string) :
  String c s +:+ t = String c (s +:+ t).
Proof. reflexivity. Qed.

Lemma split_head_no_sep (c : ascii) (s : string) :
  Py.contains c (Py.split_head c s) = false.
Proof.
  induction s as [|a s IH]; simpl; [reflexivity |].
  destruct (Ascii.eqb a c) eqn:E; simpl; [reflexivity |].
  rewrite E. exact IH.
Qed.

Lemma split_head_prefix (c : ascii) (s : string) :
  exists rest, s = Py.split_head c s +:+ rest.
Proof.
  induction s as [|a s [rest IH]]; simpl.
  - exists "". reflexivity.
  - destruct (Ascii.eqb a c).
    + exists (String a s). reflexivity.
    + exists rest. rewrite append_cons. f_equal. exact IH.
Qed.

Lemma split_head_whole (c : ascii) (s : string) :
  Py.contains c s = false -> Py.split_head c s = s.
Proof.
  induction s as [|a s IH]; simpl; [reflexivity |].
  destruct (Ascii.eqb a c); [discriminate |].
  intros H. f_equal. apply IH, H.
Qed.

Lemma split_head_append (c : ascii) (a b : string) :
  Py.contains c a = false ->
  Py.split_head c (a +:+ String c b) = a
  /\ Py.contains c (a +:+ String c b) = true.
Proof.
  induction a as [|x a IH]; intros H.
  - change (EmptyString +:+ String c b) with (String c b). simpl.
    rewrite Ascii.eqb_refl. auto.
  - rewrite append_cons. simpl in *.
    destruct (Ascii.eqb x c); [discriminate |].
    destruct (IH H) as [-> ->]. auto.
Qed.

(** ** [parse_law_file] *)

Lemma date_new_valid (y m d : Z) (dt : date) :
  date_new y m d = Ok dt -> valid_date dt.
Proof.
  unfold date_new, valid_date. intros H.
  repeat match type of H with
         | (if negb ?c then _ else _) = _ =>
             destruct c eqn:?; simpl in H; try discriminate
         end.
  injection H as <-. simpl. lia.
Qed.

Lemma parse_law_file_inv (stem : string) (root : Element) (law : Law.t) :
  parse_law_file stem root = Ok law ->
  exists y n m d pd body num_text title_text,
    int_attr root "Year" 0 = Ok y
    /\ int_attr root "Num" 0 = Ok n
    /\ int_attr root "PromulgateMonth" 1 = Ok m
    /\ int_attr root "PromulgateDay" 1 = Ok d
    /\ date_new (gregorian_year (get root "Era" "") y) m d = Ok pd
    /\ find "LawBody" root = Some body
    /\ match find "LawNum" root with
       | Some e => text e
       | None => Some ""
       end = Some num_text
    /\ match find "LawTitle" body with
       | Some e => text e
       | None => Some ""
       end = Some title_text
    /\ law = Law.mk (Py.split_head "_" stem)
               (default OTHER (law_type_mapping !! get root "LawType" ""))
               num_text title_text
               (match find "LawTitle" body with
                | Some e => Some (get e "Kana" "")
                | None => None
                end)
               (match find "LawTitle" body with
                | Some e => Some (get e "Abbrev" "")
                | None => None
                end)
               (default (get root "Era" "")
                  (era_mapping !! get root "Era" ""))
               y n pd None.
Proof.
  unfold parse_law_file. intros H.
  bind_inv H. bind_inv H. bind_inv H. bind_inv H. bind_inv H.
  bind_inv H. bind_inv H. injection H as <-.
  destruct (find "LawBody" root) as [body|]; [| discriminate].
  injection E4 as <-.
  unfold Law_new in E5. bind_inv E5. bind_inv E5. injection E5 as <-.
  unfold required_str in E4, E6.
  destruct (match find "LawNum" root with
            | Some e => text e
            | None => Some ""
            end) as [nt|] eqn:Hnum; [| discriminate].
  destruct (match find "LawTitle" body with
            | Some e => text e
            | None => Some ""
            end) as [tt|] eqn:Htitle; [| discriminate].
  injection E4 as <-. injection E6 as <-.
  exists v, v0, v1, v2, v3, body, nt, tt. auto 12.
Qed.

(** The law identifier is the part of the file stem before its first
    underscore: it holds no underscore, it is a prefix of the stem, and it is
    the whole stem when the stem has no underscore. *)
Theorem law_id_from_stem (stem : string) (root : Element) (law : Law.t) :
  parse_law_file stem root = Ok law ->
  Py.contains "_" (Law.law_id law) = false
  /\ (exists rest, stem = Law.law_id law +:+ rest)
  /\ (Py.contains "_" stem = false -> Law.law_id law = stem)
  /\ (forall a b,
        Py.contains "_" a = false -> stem = a +:+ String "_" b ->
        Law.law_id law = a).
Proof.
  intros H. apply parse_law_file_inv in H
    as (y & n & m & d & pd & body & nt & tt & _ & _ & _ & _ & _ & _ & _ & _ & ->).
  simpl. split; [apply split_head_no_sep |].
  split; [apply split_head_prefix |].
  split; [apply split_head_whole |].
  intros a b Ha ->. apply split_head_append, Ha.
Qed.

Lemma law_id_from_stem_witness :
  exists law,
    parse_law_file "L1_20190501_000000000000000" law_full = Ok law
    /\ Law.law_id law = "L1".
Proof.
  eexists. split; [vm_compute; reflexivity |].
  match goal with
  | |- Law.law_id ?l = _ =>
      apply (proj2 (proj2 (proj2
               (law_id_from_stem "L1_20190501_000000000000000" law_full l
                  ltac:(vm_compute; reflexivity))))
               "L1" "20190501_000000000000000")
  end; reflexivity.
Defined.

Lemma law_type_mapping_lookup (code : string) (t : LawType) :
  law_type_mapping !! code = Some t <->
  (code, t) ∈ [ ("Act", ACT); ("CabinetOrder", CABINET_ORDER);
                ("Ordinance", ORDINANCE);
                ("ImperialOrdinance", IMPERIAL_ORDINANCE); ("Rule", RULE) ].
Proof.
  unfold law_type_mapping.
  rewrite !lookup_insert_Some, lookup_singleton_Some, !elem_of_cons,
    elem_of_nil.
  split.
  - intros H.
    repeat (destruct H as [[<- <-] | [_ H]]; [auto 10 |]).
    destruct H as [<- <-]. auto 10.
  - intros H.
    repeat (destruct H as [[= -> ->] | H];
            [repeat (first [ left; split; reflexivity
                           | right; split; [discriminate |]
                           | split; reflexivity ]) |]).
    contradiction.
Qed.

(** An unrecognized law type code never fails the parse: the law type of a
    built law is OTHER exactly when the [LawType] attribute (the empty string
    when absent) is none of the five codes, and a recognized code gives its
    own type. *)
Theorem law_type_defaults_to_other (stem : string) (root : Element)
  (law : Law.t) :
  parse_law_file stem root = Ok law ->
  (Law.law_type law = OTHER <-> get root "LawType" "" ∉ law_type_codes)
  /\ (forall t, law_type_mapping !! get root "LawType" "" = Some t ->
                Law.law_type law = t).
Proof.
  intros H. apply parse_law_file_inv in H
    as (y & n & m & d & pd & body & nt & tt & _ & _ & _ & _ & _ & _ & _ & _ & ->).
  simpl. split.
  - destruct (law_type_mapping !! get root "LawType" "") as [t|] eqn:E; simpl.
    + apply law_type_mapping_lookup in E. unfold law_type_codes.
      rewrite !elem_of_cons, elem_of_nil in E. rewrite !elem_of_cons, elem_of_nil.
      split.
      * intros ->. exfalso.
        repeat destruct E as [E | E]; try discriminate E; exact E.
      * intros Hn. exfalso. apply Hn.
        repeat destruct E as [E | E]; try (injection E as -> _; auto 10).
        contradiction.
    + split; [| reflexivity]. intros _ Hin.
      assert (Hsome : exists t, law_type_mapping !! get root "LawType" "" = Some t).
      { unfold law_type_codes in Hin. rewrite !elem_of_cons, elem_of_nil in Hin.
        repeat destruct Hin as [-> | Hin];
          try (eexists; vm_compute; reflexivity). contradiction. }
      destruct Hsome as [t Ht]. congruence.
  - intros t ->. reflexivity.
Qed.

Lemma law_type_defaults_to_other_witness :
  exists law,
    parse_law_file "L9"
      (node "Law" {[ "LawType" := "Treaty" ]} [ node "LawBody" ∅ [] ]) = Ok law
    /\ Law.law_type law = OTHER.
Proof.
  eexists. split; [vm_compute; reflexivity |].
  match goal with
  | |- Law.law_type ?l = _ =>
      assert (H : parse_law_file "L9"
                    (node "Law" {[ "LawType" := "Treaty" ]}
                       [ node "LawBody" ∅ [] ]) = Ok l)
        by (vm_compute; reflexivity);
      pose proof (law_type_defaults_to_other _ _ _ H) as [Hiff _]
  end.
  apply Hiff.
  assert (Hg : get (node "Law" {[ "LawType" := "Treaty" ]}
                      [ node "LawBody" ∅ [] ]) "LawType" "" = "Treaty")
    by (vm_compute; reflexivity).
  rewrite Hg. unfold law_type_codes. rewrite !elem_of_cons, elem_of_nil.
  intros Hin. repeat destruct Hin as [Hin | Hin]; try discriminate; exact Hin.
Defined.

Lemma era_tables_same_keys (era : string) :
  is_Some (era_mapping !! era) <-> is_Some (era_start_years !! era).
Proof.
  unfold era_mapping, era_start_years.
  rewrite !lookup_insert_is_Some, !lookup_singleton_is_Some. reflexivity.
Qed.

(** The promulgation date of a built law is a valid calendar date, and the
    displayed era and the calendar year go together: for a recognized era the
    law carries its Japanese name and the year start + year - 1; for any
    other era string the law carries that string unchanged and the year
    1868 + year - 1. *)
Theorem law_era_and_promulgate_date (stem : string) (root : Element)
  (law : Law.t) :
  parse_law_file stem root = Ok law ->
  valid_date (Law.promulgate_date law)
  /\ ((exists start,
         ((get root "Era" "", start) ∈ recognized_eras)
         /\ era_mapping !! get root "Era" "" = Some (Law.era law)
         /\ year (Law.promulgate_date law) = start + Law.year law - 1)
      \/ ((get root "Era" "" ∉ recognized_eras.*1)
          /\ Law.era law = get root "Era" ""
          /\ year (Law.promulgate_date law) = 1868 + Law.year law - 1)).
Proof.
  intros H. apply parse_law_file_inv in H
    as (y & n & m & d & pd & body & nt & tt & _ & _ & _ & _ & Hpd & _ & _ & _
        & ->).
  cbn [Law.promulgate_date Law.era Law.year].
  split; [exact (date_new_valid _ _ _ _ Hpd) |].
  apply date_new_year in Hpd as ->. cbn [year]. unfold gregorian_year.
  destruct (era_start_years !! get root "Era" "") as [start|] eqn:E;
    cbn [default].
  - left. exists start. split; [apply era_start_years_lookup, E |].
    destruct (proj2 (era_tables_same_keys (get root "Era" ""))) as [jp Hjp];
      [eauto |].
    rewrite Hjp. auto.
  - right.
    assert (Hnone : era_mapping !! get root "Era" "" = None).
    { destruct (era_mapping !! get root "Era" "") eqn:E'; [| reflexivity].
      destruct (proj1 (era_tables_same_keys (get root "Era" ""))) as [sy Hsy];
        [eauto | congruence]. }
    rewrite Hnone. cbn [default]. split; [| auto].
    intros Hin. apply list_elem_of_fmap in Hin as ([e sy] & He & Hin).
    cbn [fst] in He. subst e. apply era_start_years_lookup in Hin. congruence.
Qed.

Lemma law_era_and_promulgate_date_witness :
  exists law,
    parse_law_file "L1_20190501" law_full = Ok law
    /\ valid_date (Law.promulgate_date law).
Proof.
  eexists. split; [vm_compute; reflexivity |].
  match goal with
  | |- valid_date (Law.promulgate_date ?l) =>
      assert (H : parse_law_file "L1_20190501" law_full = Ok l)
        by (vm_compute; reflexivity);
      exact (proj1 (law_era_and_promulgate_date _ _ _ H))
  end.
Defined.

(** Absent root attributes take their defaults: year 0, serial number 0,
    month 1 and day 1. With the year absent the promulgation year is the year
    before the era starts. *)
Theorem law_attribute_defaults (stem : string) (root : Element)
  (law : Law.t) :
  parse_law_file stem root = Ok law ->
  (attrib root !! "Year" = None ->
   Law.year law = 0
   /\ year (Law.promulgate_date law)
      = default 1868 (era_start_years !! get root "Era" "") - 1)
  /\ (attrib root !! "Num" = None -> Law.num law = 0)
  /\ (attrib root !! "PromulgateMonth" = None ->
      month (Law.promulgate_date law) = 1)
  /\ (attrib root !! "PromulgateDay" = None ->
      day (Law.promulgate_date law) = 1).
Proof.
  intros H. apply parse_law_file_inv in H
    as (y & n & m & d & pd & body & nt & tt & Hy & Hn & Hm & Hd & Hpd & _ & _
        & _ & ->).
  apply date_new_year in Hpd as ->.
  cbn [Law.promulgate_date Law.year Law.num year month day].
  unfold int_attr in *.
  split; [| split; [| split]]; intros Habs.
  - rewrite Habs in Hy. injection Hy as <-.
    split; [reflexivity | unfold gregorian_year; lia].
  - rewrite Habs in Hn. congruence.
  - rewrite Habs in Hm. congruence.
  - rewrite Habs in Hd. congruence.
Qed.

Lemma law_attribute_defaults_witness :
  exists law,
    parse_law_file "L9" (node "Law" ∅ [ node "LawBody" ∅ [] ]) = Ok law
    /\ Law.year law = 0
    /\ month (Law.promulgate_date law) = 1.
Proof.
  eexists. split; [vm_compute; reflexivity |].
  match goal with
  | |- Law.year ?l = _ /\ _ =>
      assert (H : parse_law_file "L9" (node "Law" ∅ [ node "LawBody" ∅ [] ])
                  = Ok l) by (vm_compute; reflexivity);
      destruct (law_attribute_defaults _ _ _ H) as (Hy & _ & Hm & _)
  end.
  split; [apply Hy | apply Hm]; reflexivity.
Defined.

(** With a title element, a built law carries the element's text as title
    (the element must have a text) and the [Kana] and [Abbrev] attributes as
    reading and abbreviation, the empty string, not None, for an absent
    attribute; the law number is the text of the law number element. *)
Theorem law_title_present (stem : string) (root body title : Element)
  (law : Law.t) :
  parse_law_file stem root = Ok law ->
  find "LawBody" root = Some body ->
  find "LawTitle" body = Some title ->
  text title = Some (Law.law_title law)
  /\ Law.law_title_kana law = Some (get title "Kana" "")
  /\ Law.abbreviation law = Some (get title "Abbrev" "")
  /\ (forall e, find "LawNum" root = Some e ->
                text e = Some (Law.law_num law)).
Proof.
  intros H Hbody Htitle. apply parse_law_file_inv in H
    as (y & n & m & d & pd & body' & nt & tt & _ & _ & _ & _ & _ & Hb & Hnum
        & Ht & ->).
  rewrite Hbody in Hb. injection Hb as <-. rewrite Htitle in *.
  cbn [Law.law_title Law.law_title_kana Law.abbreviation Law.law_num].
  repeat split; try assumption.
  intros e He. rewrite He in Hnum. exact Hnum.
Qed.

Lemma law_title_present_witness :
  exists law,
    parse_law_file "L1_20190501" law_full = Ok law
    /\ Some "Sample Act" = Some (Law.law_title law)
    /\ Law.law_title_kana law = Some "sanpuru"
    /\ Law.abbreviation law = Some "".
Proof.
  eexists. split; [vm_compute; reflexivity |].
  match goal with
  | |- _ = Some (Law.law_title ?l) /\ _ =>
      assert (H : parse_law_file "L1_20190501" law_full = Ok l)
        by (vm_compute; reflexivity);
      destruct (law_title_present "L1_20190501" law_full
                  (node "LawBody" ∅ (match law_full with
                                     | mkElement _ _ _ [_; b] => children b
                                     | _ => []
                                     end))
                  (mkElement "LawTitle" {[ "Kana" := "sanpuru" ]}
                     (Some "Sample Act") [])
                  l H)
        as (Ht & Hk & Ha & _)
  end.
  - vm_compute. reflexivity.
  - vm_compute. reflexivity.
  - split; [exact Ht |]. split; [exact Hk | exact Ha].
Defined.

(** ** Numbering tokens *)

(** The ordinal of an article is read from the part of its token before the
    first underscore only: whatever follows that underscore is never
    inspected, and is kept verbatim in the identifier. *)
Theorem article_num_ignores_branch (article_elem : Element)
  (law_id a b : string) (art : Article.t) :
  _parse_article article_elem law_id = Ok (Some art) ->
  get article_elem "Num" "0" = a +:+ String "_" b ->
  Py.contains "_" a = false ->
  Py.int a = Ok (Article.article_num art)
  /\ Article.article_id art = law_id +:+ "_art" +:+ a +:+ String "_" b.
Proof.
  intros H Htok Ha.
  apply _parse_article_spec in H as (n & ps & Hn & _ & [= ->]).
  cbn [Article.article_num Article.article_id]. rewrite Htok in *.
  split; [| reflexivity].
  unfold article_ordinal in Hn.
  destruct (split_head_append "_" a b Ha) as [Hhead Hcont].
  rewrite Hcont, Hhead in Hn. exact Hn.
Qed.

Lemma article_num_ignores_branch_witness :
  Py.int "7" = Ok 7
  /\ Article.article_id
       (Article.mk "L1_art7_?!" "L1" 7 None None "" []) = "L1_art7_?!".
Proof.
  apply (article_num_ignores_branch (sample_article "7_?!" []) "L1" "7" "?!"
           (Article.mk "L1_art7_?!" "L1" 7 None None "" [])).
  - vm_compute. reflexivity.
  - vm_compute. reflexivity.
  - reflexivity.
Defined.

(** An element without a [Num] attribute is numbered by default: an article
    gets the ordinal 0 and the identifier law_id + "_art0", a paragraph the
    number 1 and the suffix "_para1", an item the number 1 and the suffix
    "_item1". *)
Theorem missing_num_defaults (elem : Element) (parent : string) :
  attrib elem !! "Num" = None ->
  (forall art, _parse_article elem parent = Ok (Some art) ->
               Article.article_num art = 0
               /\ Article.article_id art = parent +:+ "_art0")
  /\ (forall p, _parse_paragraph elem parent = Ok (Some p) ->
                Paragraph.paragraph_num p = 1
                /\ Paragraph.paragraph_id p = parent +:+ "_para1")
  /\ (forall it, _parse_item elem parent = Ok (Some it) ->
                 Item.item_num it = 1
                 /\ Item.item_id it = parent +:+ "_item1").
Proof.
  intros Habs.
  assert (H0 : get elem "Num" "0" = "0") by (unfold get; rewrite Habs; reflexivity).
  assert (H1 : get elem "Num" "1" = "1") by (unfold get; rewrite Habs; reflexivity).
  split; [| split].
  - intros art H.
    apply _parse_article_spec in H as (n & ps & Hn & _ & [= ->]).
    cbn [Article.article_num Article.article_id]. rewrite H0 in *.
    vm_compute in Hn. injection Hn as <-. auto.
  - intros p H.
    apply _parse_paragraph_inv in H as (q & [= <-] & Hn & Hid & _).
    rewrite H1 in Hn. change (Py.int "1") with (@Ok Z 1) in Hn.
    injection Hn as Hn. rewrite Hid, <- Hn. auto.
  - intros it H.
    apply _parse_item_inv in H as (q & [= <-] & Hn & Hid & _).
    rewrite H1 in Hn. change (Py.int "1") with (@Ok Z 1) in Hn.
    injection Hn as Hn. rewrite Hid, <- Hn. auto.
Qed.

Lemma missing_num_defaults_witness :
  Paragraph.paragraph_num (Paragraph.mk "L1_main_para1" "L1_main" 1 "" []) = 1
  /\ Paragraph.paragraph_id (Paragraph.mk "L1_main_para1" "L1_main" 1 "" [])
     = "L1_main" +:+ "_para1".
Proof.
  refine (proj1 (proj2 (missing_num_defaults (node "Paragraph" ∅ []) "L1_main"
                          _)) _ _).
  - vm_compute. reflexivity.
  - vm_compute. reflexivity.
Defined.

(** ** Identifier collisions *)

(** Within one law, two built articles have the same identifier exactly when
    their raw numbering tokens are the same string. *)
Theorem article_ids_collide_iff (law_id : string) (e1 e2 : Element)
  (a1 a2 : Article.t) :
  _parse_article e1 law_id = Ok (Some a1) ->
  _parse_article e2 law_id = Ok (Some a2) ->
  Article.article_id a1 = Article.article_id a2
  <-> get e1 "Num" "0" = get e2 "Num" "0".
Proof.
  intros H1 H2.
  apply _parse_article_id in H1 as [-> _].
  apply _parse_article_id in H2 as [-> _].
  split; [| intros ->; reflexivity].
  intros H. apply (inj (String.app law_id)) in H.
  apply (inj (String.app "_art")) in H. exact H.
Qed.

Lemma article_ids_collide_iff_witness :
  Article.article_id parsed_article_2_2
  <> Article.article_id (Article.mk "L1_art2" "L1" 2 None None "" []).
Proof.
  intros Heq.
  apply (article_ids_collide_iff "L1" article_2_2 (sample_article "2" [])
           parsed_article_2_2 (Article.mk "L1_art2" "L1" 2 None None "" []))
    in Heq.
  - vm_compute in Heq. discriminate.
  - vm_compute. reflexivity.
  - vm_compute. reflexivity.
Defined.

(** Under one parent identifier, two built paragraphs have the same
    identifier exactly when their numbers are equal as integers, so the
    tokens "1" and "01" collide; likewise for the items of a paragraph. *)
Theorem paragraph_ids_collide_iff (parent : string) (e1 e2 : Element)
  (p1 p2 : Paragraph.t) :
  _parse_paragraph e1 parent = Ok (Some p1) ->
  _parse_paragraph e2 parent = Ok (Some p2) ->
  (Paragraph.paragraph_id p1 = Paragraph.paragraph_id p2
   <-> Paragraph.paragraph_num p1 = Paragraph.paragraph_num p2)
  /\ (forall i1 i2 it1 it2,
        _parse_item i1 (Paragraph.paragraph_id p1) = Ok (Some it1) ->
        _parse_item i2 (Paragraph.paragraph_id p1) = Ok (Some it2) ->
        Item.item_id it1 = Item.item_id it2
        <-> Item.item_num it1 = Item.item_num it2).
Proof.
  intros H1 H2.
  apply _parse_paragraph_inv in H1 as (q1 & [= <-] & _ & Hid1 & _).
  apply _parse_paragraph_inv in H2 as (q2 & [= <-] & _ & Hid2 & _).
  split.
  - rewrite Hid1, Hid2. split; [| intros ->; reflexivity].
    intros H. apply (inj (String.app parent)) in H.
    apply (inj (String.app "_para")) in H.
    unfold Py.str in H. apply (inj pretty) in H. exact H.
  - intros i1 i2 it1 it2 Hi1 Hi2.
    apply _parse_item_inv in Hi1 as (r1 & [= <-] & _ & -> & _).
    apply _parse_item_inv in Hi2 as (r2 & [= <-] & _ & -> & _).
    split; [| intros ->; reflexivity].
    intros H. apply (inj (String.app _)) in H.
    apply (inj (String.app "_item")) in H.
    unfold Py.str in H. apply (inj pretty) in H. exact H.
Qed.

Lemma paragraph_ids_collide_iff_witness :
  Paragraph.paragraph_id (Paragraph.mk "A_para1" "A" 1 "x" [])
  = Paragraph.paragraph_id (Paragraph.mk "A_para1" "A" 1 "y" []).
Proof.
  apply (proj1 (paragraph_ids_collide_iff "A" (sample_paragraph "1" ["x"])
                  (sample_paragraph "01" ["y"])
                  (Paragraph.mk "A_para1" "A" 1 "x" [])
                  (Paragraph.mk "A_para1" "A" 1 "y" [])
                  ltac:(vm_compute; reflexivity)
                  ltac:(vm_compute; reflexivity))).
  reflexivity.
Defined.

(** ** The built tree *)

Lemma Forall2_right {A B : Type} (P : A -> B -> Prop) (Q : B -> Prop)
  (l : list A) (k : list B) :
  Forall2 P l k -> (forall x y, P x y -> Q y) -> Forall Q k.
Proof.
  intros HF HPQ. induction HF; constructor; eauto.
Qed.

Lemma _parse_article_owner_links (article_elem : Element) (law_id : string)
  (art : Article.t) :
  _parse_article article_elem law_id = Ok (Some art) ->
  Forall
    (fun p =>
       Paragraph.article_id p = Article.article_id art
       /\ Forall (fun it => Item.paragraph_id it = Paragraph.paragraph_id p)
            (Paragraph.items p))
    (Article.paragraphs art).
Proof.
  intros H. apply _parse_article_spec in H as (n & ps & _ & HF & [= ->]).
  cbn [Article.paragraphs Article.article_id].
  eapply Forall2_right; [exact HF |].
  intros pe p Hp. cbv beta in Hp.
  apply _parse_paragraph_inv in Hp as (q & [= <-] & _ & _ & Hown & _ & Hitems).
  split; [exact Hown |].
  eapply Forall2_right; [exact Hitems |].
  intros ie it Hit. cbv beta in Hit.
  apply _parse_item_inv in Hit as (r & [= <-] & _ & _ & Hp & _). exact Hp.
Qed.

(** Every paragraph of a built article names that article as its owner, and
    every item of such a paragraph names that paragraph as its owner; the
    article names the law it was built for. *)
Theorem article_tree_ownership (article_elem : Element) (law_id : string)
  (art : Article.t) :
  _parse_article article_elem law_id = Ok (Some art) ->
  Article.law_id art = law_id
  /\ Forall
       (fun p =>
          Paragraph.article_id p = Article.article_id art
          /\ Forall (fun it => Item.paragraph_id it = Paragraph.paragraph_id p)
               (Paragraph.items p))
       (Article.paragraphs art).
Proof.
  intros H. split.
  - apply _parse_article_id in H. tauto.
  - exact (_parse_article_owner_links _ _ _ H).
Qed.

Lemma article_tree_ownership_witness :
  exists art,
    _parse_article (sample_article "1" [ paragraph_with_items ]) "L1"
    = Ok (Some art)
    /\ Forall (fun p => Paragraph.article_id p = Article.article_id art
                        /\ Forall (fun it => Item.paragraph_id it
                                             = Paragraph.paragraph_id p)
                             (Paragraph.items p))
         (Article.paragraphs art).
Proof.
  eexists. split; [vm_compute; reflexivity |].
  match goal with
  | |- Forall _ (Article.paragraphs ?a) =>
      assert (H : _parse_article (sample_article "1" [ paragraph_with_items ])
                    "L1" = Ok (Some a)) by (vm_compute; reflexivity);
      exact (proj2 (article_tree_ownership _ _ _ H))
  end.
Defined.

(** A built article has one paragraph per paragraph element, in document
    order and not in the order of their numbers; each paragraph has the
    number read from its element and one item per item element, again in
    document order. *)
Theorem article_children_in_document_order (article_elem : Element)
  (law_id : string) (art : Article.t) :
  _parse_article article_elem law_id = Ok (Some art) ->
  length (Article.paragraphs art)
  = length (findall "Paragraph" article_elem)
  /\ Forall2
       (fun pe p =>
          Py.int (get pe "Num" "1") = Ok (Paragraph.paragraph_num p)
          /\ length (Paragraph.items p) = length (findall "Item" pe)
          /\ Forall2
               (fun ie it =>
                  Py.int (get ie "Num" "1") = Ok (Item.item_num it))
               (findall "Item" pe) (Paragraph.items p))
       (findall "Paragraph" article_elem) (Article.paragraphs art).
Proof.
  intros H. apply _parse_article_spec in H as (n & ps & _ & HF & [= ->]).
  cbn [Article.paragraphs].
  split; [symmetry; exact (Forall2_length _ _ _ HF) |].
  eapply Forall2_impl; [exact HF |].
  intros pe p Hp. cbv beta in Hp.
  apply _parse_paragraph_inv in Hp as (q & [= <-] & Hn & _ & _ & _ & Hitems).
  split; [exact Hn |].
  split; [symmetry; exact (Forall2_length _ _ _ Hitems) |].
  eapply Forall2_impl; [exact Hitems |].
  intros ie it Hit. cbv beta in Hit.
  apply _parse_item_inv in Hit as (r & [= <-] & Hi & _). exact Hi.
Qed.

Lemma article_children_in_document_order_witness :
  exists art,
    _parse_article
      (sample_article "1" [ sample_paragraph "2" ["b"]; sample_paragraph "1" ["a"] ])
      "L1" = Ok (Some art)
    /\ length (Article.paragraphs art) = 2%nat
    /\ Paragraph.paragraph_num <$> Article.paragraphs art = [2; 1].
Proof.
  eexists. split; [vm_compute; reflexivity |].
  match goal with
  | |- length (Article.paragraphs ?a) = _ /\ _ =>
      assert (H : _parse_article
                    (sample_article "1"
                       [ sample_paragraph "2" ["b"]; sample_paragraph "1" ["a"] ])
                    "L1" = Ok (Some a)) by (vm_compute; reflexivity);
      destruct (article_children_in_document_order _ _ _ H) as [Hlen _]
  end.
  split; [rewrite Hlen; vm_compute; reflexivity | reflexivity].
Defined.

Lemma first_nonempty_empty_iff (l : list string) :
  first_nonempty l = "" <-> Forall (fun s => s = "") l.
Proof.
  induction l as [|s l IH]; simpl.
  - split; [constructor | reflexivity].
  - destruct s as [|c s]; simpl.
    + rewrite IH. split.
      * intros H. constructor; [reflexivity | exact H].
      * intros H. inversion H; assumption.
    + split; [discriminate |]. intros H. inversion H; discriminate.
Qed.

Lemma first_nonempty_elem (l : list string) :
  first_nonempty l <> "" -> first_nonempty l ∈ l.
Proof.
  induction l as [|s l IH]; simpl; [congruence |].
  destruct s as [|c s]; simpl.
  - intros H. apply elem_of_cons. right. apply IH, H.
  - intros _. apply elem_of_cons. left. reflexivity.
Qed.

(** The content of a built article is empty exactly when the content of each
    of its paragraphs is empty; otherwise it is the content of one of its
    paragraphs. *)
Theorem article_content_empty_iff (article_elem : Element) (law_id : string)
  (art : Article.t) :
  _parse_article article_elem law_id = Ok (Some art) ->
  (Article.content art = ""
   <-> Forall (fun p => Paragraph.content p = "") (Article.paragraphs art))
  /\ (Article.content art <> "" ->
      exists p, p ∈ Article.paragraphs art
                /\ Article.content art = Paragraph.content p).
Proof.
  intros H. apply _parse_article_content in H. rewrite H. split.
  - rewrite first_nonempty_empty_iff, Forall_fmap. reflexivity.
  - intros Hne. apply first_nonempty_elem in Hne.
    apply list_elem_of_fmap in Hne as (p & Hp & Hin). eauto.
Qed.

Lemma article_content_empty_iff_witness :
  exists art,
    _parse_article
      (sample_article "1" [ sample_paragraph "1" []; sample_paragraph "2" [] ])
      "L1" = Ok (Some art)
    /\ Article.content art = "".
Proof.
  eexists. split; [vm_compute; reflexivity |].
  match goal with
  | |- Article.content ?a = _ =>
      assert (H : _parse_article
                    (sample_article "1"
                       [ sample_paragraph "1" []; sample_paragraph "2" [] ])
                    "L1" = Ok (Some a)) by (vm_compute; reflexivity);
      apply (proj1 (article_content_empty_iff _ _ _ H))
  end.
  repeat constructor.
Defined.

(** ** Items *)

Lemma pretty_N_go_nonempty (x : N) (s : string) :
  s <> "" -> pretty_N_go x s <> "".
Proof.
  revert s. induction (N.lt_wf_0 x) as [x _ IH]; intros s Hs.
  destruct (decide (x = 0)%N) as [-> | Hx].
  - rewrite pretty_N_go_0. exact Hs.
  - rewrite pretty_N_go_step by lia. apply IH.
    + apply N.div_lt; lia.
    + discriminate.
Qed.

Lemma str_nonempty (n : Z) : Py.str n <> "".
Proof.
  assert (HN : forall p : positive, pretty (N.pos p) <> "").
  { intros p. unfold pretty, pretty_N.
    destruct (decide (N.pos p = 0)%N); [discriminate |].
    rewrite pretty_N_go_step by lia. apply pretty_N_go_nonempty. discriminate. }
  unfold Py.str, pretty, pretty_Z. destruct n as [|p|p].
  - discriminate.
  - apply HN.
  - discriminate.
Qed.

(** The title of a built item is the text of its title element when there
    is one (which then must have a text), and the decimal rendering of the
    item number otherwise, which is never empty. *)
Theorem item_title_rule (item_elem : Element) (paragraph_id : string)
  (it : Item.t) :
  _parse_item item_elem paragraph_id = Ok (Some it) ->
  (forall t, find "ItemTitle" item_elem = Some t ->
             text t = Some (Item.item_title it))
  /\ (find "ItemTitle" item_elem = None ->
      Item.item_title it = Py.str (Item.item_num it)
      /\ Item.item_title it <> "").
Proof.
  unfold _parse_item. intros H.
  bind_inv H. bind_inv H. injection H as <-.
  unfold Item_new in E0. bind_inv E0. injection E0 as <-.
  cbn [Item.item_title Item.item_num]. unfold required_str in E1.
  split.
  - intros t Ht. rewrite Ht in E1.
    destruct (text t); [congruence | discriminate].
  - intros Hnone. rewrite Hnone in E1. injection E1 as <-.
    split; [reflexivity | apply str_nonempty].
Qed.

Lemma item_title_rule_witness :
  Item.item_title parsed_item_4 = Py.str (Item.item_num parsed_item_4)
  /\ Item.item_title parsed_item_4 <> "".
Proof.
  apply (proj2 (item_title_rule item_4 "L1_art2_2_para3" parsed_item_4
                  ltac:(vm_compute; reflexivity))).
  vm_compute. reflexivity.
Defined.

(** A title element without text makes the item fail: once the item number
    is read, the None title is rejected by the required field. *)
Theorem item_empty_title_rejected (item_elem t : Element)
  (paragraph_id : string) (n : Z) :
  find "ItemTitle" item_elem = Some t ->
  text t = None ->
  Py.int (get item_elem "Num" "1") = Ok n ->
  _parse_item item_elem paragraph_id = Raise ValidationError.
Proof.
  intros Ht Htext Hn. unfold _parse_item. rewrite Hn. simpl.
  rewrite Ht, Htext. reflexivity.
Qed.

Lemma item_empty_title_rejected_witness :
  _parse_item (node "Item" {[ "Num" := "1" ]} [ node "ItemTitle" ∅ [] ]) "P"
  = Raise ValidationError.
Proof.
  apply (item_empty_title_rejected _ (node "ItemTitle" ∅ []) "P" 1);
    vm_compute; reflexivity.
Defined.

(** ** Errors below an article *)

Lemma _parse_paragraph_bad_item (para_elem item_elem : Element)
  (article_id : string) :
  item_elem ∈ findall "Item" para_elem ->
  (forall pid, succeeds (_parse_item item_elem pid) = false) ->
  succeeds (_parse_paragraph para_elem article_id) = false.
Proof.
  intros Hin Hbad. unfold _parse_paragraph.
  destruct (Py.int (get para_elem "Num" "1")) as [n|e]; simpl; [| reflexivity].
  match goal with
  | |- succeeds (bind (for_in ?xs ?body ?s) _) = false =>
      pose proof (for_in_raise body item_elem) as Hloop;
      assert (Hstep : forall st, succeeds (body item_elem st) = false)
  end.
  { intros st. cbv beta.
    specialize (Hbad (article_id +:+ "_para" +:+ Py.str n)).
    destruct (_parse_item item_elem _); [discriminate | reflexivity]. }
  specialize (Hloop Hstep _ Hin).
  match goal with
  | |- succeeds (bind ?m _) = false =>
      specialize (Hloop (Paragraph.mk (article_id +:+ "_para" +:+ Py.str n)
                           article_id n
                           (sentence_content
                              (find "ParagraphSentence" para_elem)) []));
      destruct m; [discriminate | reflexivity]
  end.
Qed.

Lemma _parse_article_bad_paragraph (article_elem para_elem : Element)
  (law_id : string) :
  para_elem ∈ findall "Paragraph" article_elem ->
  (forall aid, succeeds (_parse_paragraph para_elem aid) = false) ->
  succeeds (_parse_article article_elem law_id) = false.
Proof.
  intros Hin Hbad. unfold _parse_article.
  destruct (article_ordinal _) as [n|e]; simpl; [| reflexivity].
  match goal with
  | |- succeeds (bind (for_in ?xs ?body ?s) _) = false =>
      pose proof (for_in_raise body para_elem) as Hloop;
      assert (Hstep : forall st, succeeds (body para_elem st) = false)
  end.
  { intros st. unfold paragraph_step.
    specialize (Hbad (law_id +:+ "_art" +:+ get article_elem "Num" "0")).
    destruct (_parse_paragraph para_elem _); [discriminate | reflexivity]. }
  specialize (Hloop Hstep _ Hin).
  match goal with
  | |- succeeds (bind (for_in _ _ ?s) _) = false =>
      specialize (Hloop s)
  end.
  destruct (for_in _ _ _); [discriminate | reflexivity].
Qed.

(** No error is contained at any depth: an item whose number [int] cannot
    read, in a paragraph of an article directly under the main provision or
    a chapter, makes [parse_articles] raise for the whole document, and so
    does a paragraph whose number cannot be read. *)
Theorem bad_number_below_article_aborts
  (root body container article_elem para_elem : Element) (law_id : string) :
  find "LawBody" root = Some body ->
  find "MainProvision" body = Some container
  \/ container ∈ findall "Chapter" body ->
  article_elem ∈ findall "Article" container ->
  para_elem ∈ findall "Paragraph" article_elem ->
  succeeds (Py.int (get para_elem "Num" "1")) = false
  \/ (exists item_elem,
        item_elem ∈ findall "Item" para_elem
        /\ succeeds (Py.int (get item_elem "Num" "1")) = false) ->
  exists e, parse_articles root law_id = Raise e.
Proof.
  intros Hbody Hcont Hart Hpara Hbad.
  assert (Hp : forall aid, succeeds (_parse_paragraph para_elem aid) = false).
  { intros aid. destruct Hbad as [Hnum | (ie & Hin & Hnum)].
    - unfold _parse_paragraph.
      destruct (Py.int (get para_elem "Num" "1")); [discriminate | reflexivity].
    - apply (_parse_paragraph_bad_item _ ie); [exact Hin |].
      intros pid. unfold _parse_item.
      destruct (Py.int (get ie "Num" "1")); [discriminate | reflexivity]. }
  assert (Ha : succeeds (_parse_article article_elem law_id) = false)
    by (eapply _parse_article_bad_paragraph; eauto).
  assert (Hsec : succeeds (_parse_articles_from_element container law_id)
                 = false)
    by (eapply _parse_articles_from_element_bad_article; eauto).
  apply succeeds_false.
  unfold parse_articles. rewrite Hbody. simpl.
  destruct Hcont as [Hmain | Hchap].
  - rewrite Hmain.
    destruct (_parse_articles_from_element container law_id);
      [discriminate | reflexivity].
  - match goal with
    | |- succeeds (bind ?m _) = false => destruct m as [acc|e]
    end; [| reflexivity].
    simpl. apply (for_in_raise _ container); [| exact Hchap].
    intros s.
    destruct (_parse_articles_from_element container law_id);
      [discriminate | reflexivity].
Qed.

Lemma bad_number_below_article_aborts_witness :
  exists e, parse_articles law_with_bad_item "L1" = Raise e.
Proof.
  apply (bad_number_below_article_aborts law_with_bad_item bad_item_body
           bad_item_chapter bad_item_article bad_item_paragraph "L1").
  - vm_compute. reflexivity.
  - right. in_findall.
  - in_findall.
  - in_findall.
  - right. exists bad_item. split; [in_findall | vm_compute; reflexivity].
Defined.

(** ** Sections, chapters and the whole document *)

(** A section or chapter that has article elements yields exactly one
    article per article element, in document order, with the identifier of
    each derived from its own token; equal tokens are not merged, and direct
    paragraph children of such a section are not built. *)
Theorem section_articles_in_order (element : Element) (law_id : string)
  (arts : list Article.t) :
  findall "Article" element <> [] ->
  _parse_articles_from_element element law_id = Ok arts ->
  Forall2 (fun e a => _parse_article e law_id = Ok (Some a))
    (findall "Article" element) arts
  /\ length arts = length (findall "Article" element)
  /\ Article.article_id <$> arts
     = (fun e => law_id +:+ "_art" +:+ get e "Num" "0")
       <$> findall "Article" element.
Proof.
  intros Hne H.
  apply _parse_articles_from_element_spec in H as (l & HF & H).
  assert (Hcond : nonempty (findall "Paragraph" element)
                  && negb (nonempty (findall "Article" element)) = false).
  { destruct (findall "Article" element); [congruence |].
    simpl. apply andb_false_r. }
  rewrite Hcond in H. subst arts.
  split; [exact HF |].
  split; [symmetry; exact (Forall2_length _ _ _ HF) |].
  clear Hne Hcond. induction HF as [|e a es l' Ha HF IH]; [reflexivity |].
  rewrite !fmap_cons, IH. f_equal.
  apply _parse_article_id in Ha as [-> _]. reflexivity.
Qed.

Lemma section_articles_in_order_witness :
  exists arts,
    _parse_articles_from_element
      (node "Chapter" ∅
         [ sample_article "3" []; sample_paragraph "9" ["dropped"];
           sample_article "1" []; sample_article "3" [] ]) "L1" = Ok arts
    /\ Article.article_id <$> arts = ["L1_art3"; "L1_art1"; "L1_art3"].
Proof.
  eexists. split; [vm_compute; reflexivity |].
  match goal with
  | |- Article.article_id <$> ?l = _ =>
      destruct (section_articles_in_order
                  (node "Chapter" ∅
                     [ sample_article "3" []; sample_paragraph "9" ["dropped"];
                       sample_article "1" []; sample_article "3" [] ])
                  "L1" l) as (_ & _ & Hids)
  end.
  - vm_compute. discriminate.
  - vm_compute. reflexivity.
  - rewrite Hids. vm_compute. reflexivity.
Defined.

Lemma extend_loop {A B : Type} (f : A -> Exc (list B)) (xs : list A)
  (acc r : list B) :
  for_in xs (fun x acc => do found <- f x; Ok (acc ++ found)) acc = Ok r <->
  exists ls, Forall2 (fun x l => f x = Ok l) xs ls /\ r = acc ++ concat ls.
Proof.
  revert acc. induction xs as [|x xs IH]; intros acc; simpl.
  - split.
    + intros [= <-]. exists []. split; [constructor |].
      simpl. rewrite app_nil_r. reflexivity.
    + intros (ls & HF & ->). inversion HF; subst. simpl.
      rewrite app_nil_r. reflexivity.
  - destruct (f x) as [found|e] eqn:E; simpl.
    + rewrite IH. split.
      * intros (ls & HF & ->). exists (found :: ls).
        split; [constructor; assumption |].
        simpl. rewrite app_assoc. reflexivity.
      * intros (ls & HF & ->).
        inversion HF as [|? l0 ? ls' Hl HF']; subst.
        rewrite E in Hl. injection Hl as <-. exists ls'.
        split; [exact HF' |]. simpl. rewrite app_assoc. reflexivity.
    + split; [discriminate |].
      intros (ls & HF & _). inversion HF; subst. congruence.
Qed.

(** [parse_articles] succeeds exactly when the main provision, if there is
    one, and every chapter directly under the body are parsed without error,
    and then returns the articles of the main provision followed by those of
    the chapters in document order, nothing sorted, merged or removed;
    articles elsewhere in the document are not visited. *)
Theorem parse_articles_concatenates (root body : Element) (law_id : string)
  (arts : list Article.t) :
  find "LawBody" root = Some body ->
  parse_articles root law_id = Ok arts <->
  exists ls,
    Forall2 (fun el l => _parse_articles_from_element el law_id = Ok l)
      (option_list (find "MainProvision" body) ++ findall "Chapter" body) ls
    /\ arts = concat ls.
Proof.
  intros Hbody. unfold parse_articles. rewrite Hbody. simpl.
  destruct (find "MainProvision" body) as [mp|]; simpl.
  - destruct (_parse_articles_from_element mp law_id) as [found|e] eqn:E;
      simpl.
    + rewrite (extend_loop (fun el => _parse_articles_from_element el law_id)).
      split.
      * intros (ls & HF & ->). exists (found :: ls).
        split; [constructor; assumption | reflexivity].
      * intros (ls & HF & ->).
        inversion HF as [|? l0 ? ls' Hl HF']; subst.
        rewrite E in Hl. injection Hl as <-. exists ls'. auto.
    + split; [discriminate |].
      intros (ls & HF & _). inversion HF; subst. congruence.
  - rewrite (extend_loop (fun el => _parse_articles_from_element el law_id)).
    reflexivity.
Qed.

Lemma parse_articles_concatenates_witness :
  exists arts,
    parse_articles law_full "L1" = Ok arts
    /\ Article.article_id <$> arts = ["L1_art1"; "L1_art2_2"].
Proof.
  eexists. split; [vm_compute; reflexivity |].
  match goal with
  | |- Article.article_id <$> ?l = _ =>
      destruct (proj1 (parse_articles_concatenates law_full law_full_body
                         "L1" l ltac:(vm_compute; reflexivity))
                  ltac:(vm_compute; reflexivity)) as (ls & _ & Hl)
  end.
  vm_compute. reflexivity.
Defined.

(** ** More on supplementary provisions *)

Lemma _parse_suppl_provision_fields (suppl_elem : Element) (law_id : string)
  (sp : SupplProvision.t) :
  _parse_suppl_provision suppl_elem law_id = Ok (Some sp) ->
  exists l ps,
    Forall2 (fun e a => _parse_article e law_id = Ok (Some a))
      (findall "Article" suppl_elem) l
    /\ Forall2
         (fun pe p =>
            _parse_paragraph pe
              (suppl_provision_id law_id (get suppl_elem "Type" "New")
                 (get_opt suppl_elem "AmendLawNum")) = Ok (Some p))
         (findall "Paragraph" suppl_elem) ps
    /\ sp = SupplProvision.mk
              (suppl_provision_id law_id (get suppl_elem "Type" "New")
                 (get_opt suppl_elem "AmendLawNum"))
              law_id (get_opt suppl_elem "AmendLawNum")
              (get suppl_elem "Type" "New")
              (String.eqb (get suppl_elem "Extract" "false") "true") l ps.
Proof.
  unfold _parse_suppl_provision. intros H.
  bind_inv H. bind_inv H. injection H as <-.
  eapply (for_in_collect (fun e => _parse_article e law_id)
            append_suppl_article) in E.
  - destruct E as (l & HA & ->).
    eapply (for_in_collect
              (fun pe => _parse_paragraph pe
                           (suppl_provision_id law_id
                              (get suppl_elem "Type" "New")
                              (get_opt suppl_elem "AmendLawNum")))
              append_suppl_paragraph) in E0.
    + destruct E0 as (ps & HP & ->).
      rewrite fold_append_suppl_paragraph, fold_append_suppl_article.
      exists l, ps. auto.
    + intros x s. destruct (_parse_paragraph x _) as [[p|]|e]; reflexivity.
    + intros x o. apply _parse_paragraph_is_Some.
  - intros x s. destruct (_parse_article x law_id) as [[a|]|e]; reflexivity.
  - intros x o. apply _parse_article_is_Some.
Qed.

(** The direct paragraphs of a supplementary provision are owned by the
    provision: their owner field and the prefix of their identifier are the
    provision's identifier, while the provision's articles are owned by the
    law and own their paragraphs themselves. *)
Theorem suppl_paragraphs_use_provision_scope (suppl_elem : Element)
  (law_id : string) (sp : SupplProvision.t) :
  _parse_suppl_provision suppl_elem law_id = Ok (Some sp) ->
  Forall2
    (fun pe p =>
       Py.int (get pe "Num" "1") = Ok (Paragraph.paragraph_num p)
       /\ Paragraph.article_id p = SupplProvision.suppl_provision_id sp
       /\ Paragraph.paragraph_id p
          = SupplProvision.suppl_provision_id sp +:+ "_para"
            +:+ Py.str (Paragraph.paragraph_num p))
    (findall "Paragraph" suppl_elem) (SupplProvision.paragraphs sp)
  /\ Forall
       (fun a =>
          Article.law_id a = law_id
          /\ Forall (fun p => Paragraph.article_id p = Article.article_id a)
               (Article.paragraphs a))
       (SupplProvision.articles sp).
Proof.
  intros H. apply _parse_suppl_provision_fields in H as (l & ps & HA & HP & ->).
  cbn [SupplProvision.suppl_provision_id SupplProvision.paragraphs
       SupplProvision.articles].
  split.
  - eapply Forall2_impl; [exact HP |].
    intros pe p Hp. cbv beta in Hp.
    apply _parse_paragraph_inv in Hp as (q & [= <-] & Hn & Hid & Hown & _).
    auto.
  - eapply Forall2_right; [exact HA |].
    intros e a Ha. cbv beta in Ha.
    split; [exact (proj2 (_parse_article_id _ _ _ Ha)) |].
    eapply Forall_impl; [exact (_parse_article_owner_links _ _ _ Ha) |].
    intros p [Hp _]. exact Hp.
Qed.

Lemma suppl_paragraphs_use_provision_scope_witness :
  exists sp,
    _parse_suppl_provision suppl_amend "L1" = Ok (Some sp)
    /\ Paragraph.article_id <$> SupplProvision.paragraphs sp
       = ["L1_suppl_Amend_X_Y"]
    /\ Forall (fun a => Article.law_id a = "L1"
                        /\ Forall (fun p => Paragraph.article_id p
                                            = Article.article_id a)
                             (Article.paragraphs a))
         (SupplProvision.articles sp).
Proof.
  eexists. split; [vm_compute; reflexivity |].
  split; [reflexivity |].
  match goal with
  | |- Forall _ (SupplProvision.articles ?s) =>
      assert (H : _parse_suppl_provision suppl_amend "L1" = Ok (Some s))
        by (vm_compute; reflexivity);
      exact (proj2 (suppl_paragraphs_use_provision_scope _ _ _ H))
  end.
Defined.

(** A built supplementary provision keeps the raw amending-law number (with
    its spaces), takes the type "New" when the [Type] attribute is absent,
    and has its extract flag set exactly when the [Extract] attribute is the
    string "true". *)
Theorem suppl_provision_attributes (suppl_elem : Element) (law_id : string)
  (sp : SupplProvision.t) :
  _parse_suppl_provision suppl_elem law_id = Ok (Some sp) ->
  SupplProvision.amend_law_num sp = get_opt suppl_elem "AmendLawNum"
  /\ SupplProvision.suppl_provision_type sp = get suppl_elem "Type" "New"
  /\ (get_opt suppl_elem "Type" = None ->
      SupplProvision.suppl_provision_type sp = "New")
  /\ (SupplProvision.extract sp = true
      <-> get_opt suppl_elem "Extract" = Some "true")
  /\ SupplProvision.law_id sp = law_id.
Proof.
  intros H. apply _parse_suppl_provision_fields in H as (l & ps & _ & _ & ->).
  cbn [SupplProvision.amend_law_num SupplProvision.suppl_provision_type
       SupplProvision.extract SupplProvision.law_id].
  split; [reflexivity |]. split; [reflexivity |].
  split; [intros Ht; unfold get, get_opt in *; rewrite Ht; reflexivity |].
  split; [| reflexivity].
  rewrite String.eqb_eq. unfold get, get_opt.
  destruct (attrib suppl_elem !! "Extract") as [v|]; simpl.
  - split; [intros ->; reflexivity | intros [= ->]; reflexivity].
  - split; discriminate.
Qed.

Lemma suppl_provision_attributes_witness :
  exists sp,
    _parse_suppl_provision suppl_amend "L1" = Ok (Some sp)
    /\ SupplProvision.amend_law_num sp = Some "X Y"
    /\ SupplProvision.extract sp = true.
Proof.
  eexists. split; [vm_compute; reflexivity |].
  match goal with
  | |- SupplProvision.amend_law_num ?s = _ /\ _ =>
      assert (H : _parse_suppl_provision suppl_amend "L1" = Ok (Some s))
        by (vm_compute; reflexivity);
      destruct (suppl_provision_attributes _ _ _ H) as (Ha & _ & _ & He & _)
  end.
  split; [rewrite Ha; vm_compute; reflexivity |].
  apply He. vm_compute. reflexivity.
Defined.

Lemma _parse_suppl_provision_is_Some (suppl_elem : Element) (law_id : string)
  (r : option SupplProvision.t) :
  _parse_suppl_provision suppl_elem law_id = Ok r -> is_Some r.
Proof.
  intros H. apply _parse_suppl_provision_inv in H as (sp & -> & _).
  eexists; reflexivity.
Qed.

(** [parse_suppl_provisions] returns one supplementary provision per
    supplementary-provision element directly under the body, in document
    order, each with the identifier derived from its own attributes, so that
    provisions with the same type and amending-law number share an
    identifier; it succeeds as soon as each element is parsed without
    error. *)
Theorem parse_suppl_provisions_in_order (root body : Element)
  (law_id : string) :
  find "LawBody" root = Some body ->
  (forall sps,
     parse_suppl_provisions root law_id = Ok sps ->
     Forall2 (fun e sp => _parse_suppl_provision e law_id = Ok (Some sp))
       (findall "SupplProvision" body) sps
     /\ length sps = length (findall "SupplProvision" body)
     /\ SupplProvision.suppl_provision_id <$> sps
        = (fun e => suppl_provision_id law_id (get e "Type" "New")
                      (get_opt e "AmendLawNum"))
          <$> findall "SupplProvision" body)
  /\ (forall sps,
        Forall2 (fun e sp => _parse_suppl_provision e law_id = Ok (Some sp))
          (findall "SupplProvision" body) sps ->
        parse_suppl_provisions root law_id = Ok sps).
Proof.
  intros Hbody.
  assert (Hloop : forall sps,
            parse_suppl_provisions root law_id = Ok sps <->
            Forall2 (fun e sp => _parse_suppl_provision e law_id = Ok (Some sp))
              (findall "SupplProvision" body) sps).
  { intros sps. unfold parse_suppl_provisions. rewrite Hbody. simpl.
    rewrite (for_in_collect (fun e => _parse_suppl_provision e law_id)
               (fun l sp => l ++ [sp])).
    - split.
      + intros (l & HF & ->). rewrite fold_snoc. exact HF.
      + intros HF. exists sps. rewrite fold_snoc. auto.
    - intros x s.
      destruct (_parse_suppl_provision x law_id) as [[sp|]|e]; reflexivity.
    - intros x r. apply _parse_suppl_provision_is_Some. }
  split.
  - intros sps H. apply Hloop in H. clear Hloop.
    split; [exact H |].
    split; [symmetry; exact (Forall2_length _ _ _ H) |].
    induction H as [|e sp es sps' Hsp HF IH]; [reflexivity |].
    rewrite !fmap_cons, IH. f_equal.
    apply _parse_suppl_provision_inv in Hsp as (sp' & [= <-] & Hid & _).
    exact Hid.
  - intros sps HF. apply Hloop, HF.
Qed.

Lemma parse_suppl_provisions_in_order_witness :
  exists sps,
    parse_suppl_provisions law_full "L1" = Ok sps
    /\ SupplProvision.suppl_provision_id <$> sps
       = ["L1_suppl_New"; "L1_suppl_Amend_X_Y"].
Proof.
  eexists. split; [vm_compute; reflexivity |].
  match goal with
  | |- SupplProvision.suppl_provision_id <$> ?l = _ =>
      destruct (proj1 (parse_suppl_provisions_in_order law_full law_full_body
                         "L1" ltac:(vm_compute; reflexivity)) l
                  ltac:(vm_compute; reflexivity)) as (_ & _ & Hids)
  end.
  rewrite Hids. vm_compute. reflexivity.
Defined.

(** A numbering token that cannot be read on an article of any
    supplementary provision makes [parse_suppl_provisions] raise for the
    whole document: the provisions before it are not returned either. *)
Theorem bad_token_aborts_parse_suppl_provisions
  (root body suppl_elem article_elem : Element) (law_id : string) :
  find "LawBody" root = Some body ->
  suppl_elem ∈ findall "SupplProvision" body ->
  article_elem ∈ findall "Article" suppl_elem ->
  succeeds (article_ordinal (get article_elem "Num" "0")) = false ->
  exists e, parse_suppl_provisions root law_id = Raise e.
Proof.
  intros Hbody Hsuppl Hart Hbad.
  assert (Hsp : succeeds (_parse_suppl_provision suppl_elem law_id) = false).
  { unfold _parse_suppl_provision.
    match goal with
    | |- succeeds (bind (for_in ?xs ?body ?s) _) = false =>
        pose proof (for_in_raise body article_elem) as Hloop;
        assert (Hstep : forall st, succeeds (body article_elem st) = false)
    end.
    { intros st. cbv beta.
      pose proof (_parse_article_bad_token article_elem law_id Hbad) as Ha.
      destruct (_parse_article article_elem law_id);
        [discriminate | reflexivity]. }
    specialize (Hloop Hstep _ Hart).
    match goal with
    | |- succeeds (bind (for_in _ _ ?s) _) = false => specialize (Hloop s)
    end.
    destruct (for_in _ _ _); [discriminate | reflexivity]. }
  apply succeeds_false. unfold parse_suppl_provisions. rewrite Hbody. simpl.
  apply (for_in_raise _ suppl_elem); [| exact Hsuppl].
  intros s. destruct (_parse_suppl_provision suppl_elem law_id);
    [discriminate | reflexivity].
Qed.

Lemma bad_token_aborts_parse_suppl_provisions_witness :
  exists e, parse_suppl_provisions law_with_bad_suppl "L1" = Raise e.
Proof.
  apply (bad_token_aborts_parse_suppl_provisions law_with_bad_suppl
           bad_suppl_body bad_suppl (sample_article "abc" []) "L1").
  - vm_compute. reflexivity.
  - in_findall.
  - in_findall.
  - vm_compute. reflexivity.
Defined.

Lemma replace_truthy (a b : ascii) (s : string) :
  Py.truthy (Py.replace a b s) = Py.truthy s.
Proof. destruct s; reflexivity. Qed.

Lemma replace_space_no_space (s : string) :
  Py.contains " " (Py.replace " " "_" s) = false.
Proof.
  induction s as [|c s IH]; simpl; [reflexivity |].
  destruct (Ascii.eqb c " ") eqn:E; simpl; [exact IH |].
  rewrite E. exact IH.
Qed.

(** The part of a supplementary-provision identifier that comes from the
    amending-law number holds no space, and two provisions of the same law
    and type whose amending-law numbers differ only by spaces against
    underscores get the same identifier. *)
Theorem suppl_ids_collide_on_spaces (law_id : string) (e1 e2 : Element)
  (sp1 sp2 : SupplProvision.t) (n1 n2 : string) :
  _parse_suppl_provision e1 law_id = Ok (Some sp1) ->
  _parse_suppl_provision e2 law_id = Ok (Some sp2) ->
  get e1 "Type" "New" = get e2 "Type" "New" ->
  get_opt e1 "AmendLawNum" = Some n1 ->
  get_opt e2 "AmendLawNum" = Some n2 ->
  Py.replace " " "_" n1 = Py.replace " " "_" n2 ->
  SupplProvision.suppl_provision_id sp1 = SupplProvision.suppl_provision_id sp2
  /\ Py.contains " " (Py.replace " " "_" n1) = false.
Proof.
  intros H1 H2 Ht Hn1 Hn2 Hrep.
  apply _parse_suppl_provision_inv in H1 as (q1 & [= <-] & -> & _).
  apply _parse_suppl_provision_inv in H2 as (q2 & [= <-] & -> & _).
  split; [| apply replace_space_no_space].
  rewrite Ht, Hn1, Hn2. unfold suppl_provision_id.
  rewrite <- (replace_truthy " " "_" n1), <- (replace_truthy " " "_" n2), Hrep.
  reflexivity.
Qed.

Lemma suppl_ids_collide_on_spaces_witness :
  SupplProvision.suppl_provision_id
    (SupplProvision.mk "L1_suppl_Amend_X_Y" "L1" (Some "X Y") "Amend" false
       [] [])
  = SupplProvision.suppl_provision_id
      (SupplProvision.mk "L1_suppl_Amend_X_Y" "L1" (Some "X_Y") "Amend" false
         [] []).
Proof.
  apply (suppl_ids_collide_on_spaces "L1"
           (node "SupplProvision"
              {[ "Type" := "Amend"; "AmendLawNum" := "X Y" ]} [])
           (node "SupplProvision"
              {[ "Type" := "Amend"; "AmendLawNum" := "X_Y" ]} [])
           _ _ "X Y" "X_Y"); vm_compute; reflexivity.
Defined.

(** ** What is not visited *)

(** Only the direct children are looked at. When the main provision has no
    direct article or paragraph and the body has no direct chapter,
    [parse_articles] returns the empty list without error, whatever is nested
    deeper: a chapter placed inside the main provision is not visited. *)
Theorem nested_sections_not_visited (root body : Element) (law_id : string) :
  find "LawBody" root = Some body ->
  (forall mp, find "MainProvision" body = Some mp ->
              findall "Article" mp = [] /\ findall "Paragraph" mp = []) ->
  findall "Chapter" body = [] ->
  parse_articles root law_id = Ok [].
Proof.
  intros Hbody Hmp Hch. unfold parse_articles. rewrite Hbody. simpl.
  rewrite Hch.
  destruct (find "MainProvision" body) as [mp|]; [| reflexivity].
  destruct (Hmp mp eq_refl) as [Ha Hp].
  unfold _parse_articles_from_element. rewrite Ha, Hp. reflexivity.
Qed.

Lemma nested_sections_not_visited_witness :
  parse_articles law_with_nested_chapter "L1" = Ok [].
Proof.
  apply (nested_sections_not_visited law_with_nested_chapter nested_body).
  - vm_compute. reflexivity.
  - intros mp Hmp. vm_compute in Hmp. injection Hmp as <-.
    split; vm_compute; reflexivity.
  - vm_compute. reflexivity.
Defined.

(** ** The content of an item *)

(** The content of a built item is the texts of the sentence fragments of
    its sentence container joined by single spaces, a fragment without text
    being skipped, and the empty string without a container. *)
Theorem item_content_joined (item_elem : Element) (paragraph_id : string)
  (it : Item.t) :
  _parse_item item_elem paragraph_id = Ok (Some it) ->
  (find "ItemSentence" item_elem = None -> Item.content it = "")
  /\ (forall c,
        find "ItemSentence" item_elem = Some c ->
        Item.content it
        = String.concat " " (fragment_texts (findall "Sentence" c))).
Proof.
  intros H. apply _parse_item_inv in H as (q & [= <-] & _ & _ & _ & Hc).
  rewrite Hc. split.
  - intros ->. reflexivity.
  - intros c ->. apply join_sentences_fragments.
Qed.

Lemma item_content_joined_witness :
  exists it,
    _parse_item
      (node "Item" {[ "Num" := "1" ]}
         [ node "ItemSentence" ∅
             [ leaf "Sentence" "a"; node "Sentence" ∅ []; leaf "Sentence" "b" ] ])
      "P" = Ok (Some it)
    /\ Item.content it = "a b".
Proof.
  eexists. split; [vm_compute; reflexivity |].
  match goal with
  | |- Item.content ?i = _ =>
      assert (H : _parse_item
                    (node "Item" {[ "Num" := "1" ]}
                       [ node "ItemSentence" ∅
                           [ leaf "Sentence" "a"; node "Sentence" ∅ [];
                             leaf "Sentence" "b" ] ])
                    "P" = Ok (Some i)) by (vm_compute; reflexivity);
      rewrite (proj2 (item_content_joined _ _ _ H)
                 (node "ItemSentence" ∅
                    [ leaf "Sentence" "a"; node "Sentence" ∅ [];
                      leaf "Sentence" "b" ])
                 ltac:(vm_compute; reflexivity))
  end.
  vm_compute. reflexivity.
Defined.

(** ** When a law is built *)

(** [parse_law_file] builds a law exactly when the four integer attributes
    are readable, the era year, month and day form a calendar date, the body
    is present, and the law number element and the title element, where
    present, have a text. *)
Theorem parse_law_file_succeeds_iff (stem : string) (root : Element) :
  (exists law, parse_law_file stem root = Ok law) <->
  exists y n m d body,
    int_attr root "Year" 0 = Ok y
    /\ int_attr root "Num" 0 = Ok n
    /\ int_attr root "PromulgateMonth" 1 = Ok m
    /\ int_attr root "PromulgateDay" 1 = Ok d
    /\ valid_date (mkdate (gregorian_year (get root "Era" "") y) m d)
    /\ find "LawBody" root = Some body
    /\ (forall e, find "LawNum" root = Some e -> is_Some (text e))
    /\ (forall e, find "LawTitle" body = Some e -> is_Some (text e)).
Proof.
  split.
  - intros [law H]. apply parse_law_file_inv in H
      as (y & n & m & d & pd & body & nt & tt & Hy & Hn & Hm & Hd & Hpd & Hb
          & Hnum & Ht & _).
    exists y, n, m, d, body.
    pose proof (date_new_valid _ _ _ _ Hpd) as Hv.
    apply date_new_year in Hpd as ->.
    do 6 (split; [assumption |]). split.
    + intros e He. rewrite He in Hnum. eauto.
    + intros e He. rewrite He in Ht. eauto.
  - intros (y & n & m & d & body & Hy & Hn & Hm & Hd & Hv & Hb & Hnum & Ht).
    unfold parse_law_file. rewrite Hy, Hn, Hm, Hd. simpl.
    unfold _convert_to_gregorian_date.
    assert (Hdate : date_new (gregorian_year (get root "Era" "") y) m d
                    = Ok (mkdate (gregorian_year (get root "Era" "") y) m d)).
    { unfold valid_date in Hv. cbn [year month day] in Hv.
      unfold date_new, fits_c_int.
      assert (Hdm : days_in_month (gregorian_year (get root "Era" "") y) m
                    <= 31).
      { unfold days_in_month.
        repeat match goal with
               | |- context [if ?c then _ else _] => destruct c
               end; lia. }
      repeat match goal with
             | |- (if negb ?c then _ else _) = _ =>
                 replace c with true by (symmetry; lia); cbn [negb]
             end.
      reflexivity. }
    rewrite Hdate, Hb. simpl. unfold Law_new.
    assert (Hn' : exists nt, match find "LawNum" root with
                             | Some e => text e
                             | None => Some ""
                             end = Some nt).
    { destruct (find "LawNum" root) as [e|]; [| eauto].
      destruct (Hnum e eq_refl) as [t ->]. eauto. }
    assert (Ht' : exists tt, match find "LawTitle" body with
                             | Some e => text e
                             | None => Some ""
                             end = Some tt).
    { destruct (find "LawTitle" body) as [e|]; [| eauto].
      destruct (Ht e eq_refl) as [t ->]. eauto. }
    destruct Hn' as [nt ->]. destruct Ht' as [tt ->]. simpl. eauto.
Qed.

Lemma parse_law_file_succeeds_iff_witness :
  exists law, parse_law_file "L1_20190501" law_full = Ok law.
Proof.
  apply (proj2 (parse_law_file_succeeds_iff "L1_20190501" law_full)).
  exists 1, 1, 5, 1, law_full_body.
  do 4 (split; [vm_compute; reflexivity |]).
  split; [unfold valid_date; vm_compute; intuition discriminate |].
  split; [vm_compute; reflexivity |].
  split.
  - intros e He. vm_compute in He. injection He as <-. eexists. reflexivity.
  - intros e He. vm_compute in He. injection He as <-. eexists. reflexivity.
Defined.
